(** * FilaSense: single-pin filament diameter sensor (klippy/extras/filasense.py)

    A shallow embedding of the [FilaSense] class and a verification of its
    diameter estimator, delay queue, runout check and extrusion-multiplier
    timer.

    Numbers.  Python floats are modelled as exact rationals ([Q]): [+], [-],
    [*], [/], [**] and the comparisons are the exact ones, [round(x)] is
    rounding to the nearest integer with ties to even (Python 3) and
    [round(x, 2)] rounds to the nearest multiple of 1/100 the same way.
    Python ints ([raw], [raw_1], [raw_2], [measurement_interval]) are [Z] and
    are injected into [Q] where Python promotes them to float.  A division by
    zero raises [ZeroDivisionError], as in Python.

    Exact arithmetic is the level at which the control flow of the class is
    verified: what a tick calls and returns, which diameter it selects, how
    the timer is scheduled.  Two statements depend on how the machine rounds:
    what the estimator returns at a calibration point (lines 70-72) and how
    far apart two queued positions are (line 81).  For these the module
    [Binary64] has the same lines on IEEE 754 binary64 values
    ([PrimFloat.float]), every operation rounded to nearest, ties to even,
    with [round(x)] and [round(x, 2)] taken on the exact value of the float.

    Effects.  A method of the class is a computation in the monad [M]: it
    reads and writes the object ([self]), appends to the trace of calls made
    to the collaborators (G-code responses, G-code scripts, the runout helper)
    and may raise.  A raise keeps the state and the trace reached so far. *)

From Stdlib Require Import ZArith QArith Qround Qfield Bool List String Lia.
From Stdlib Require Import Sorting.Sorted.
From Stdlib Require Import Floats.
Import ListNotations.

#[local] Set Warnings "-inexact-float".

Local Open Scope Q_scope.

(** ** Python numerics *)

Module Py.

(** [round(x)] on a fraction [n/d] in lowest terms or not: nearest integer,
    ties to the even one. *)
Definition round_fraction (n : Z) (d : positive) : Z :=
  let f := (n / Zpos d)%Z in
  let r := (n mod Zpos d)%Z in
  match (2 * r ?= Zpos d)%Z with
  | Lt => f
  | Gt => (f + 1)%Z
  | Eq => if Z.even f then f else (f + 1)%Z
  end.

(** Python 3 [round(x)]: float to int. *)
Definition round (x : Q) : Z :=
  let y := Qred x in round_fraction (Qnum y) (Qden y).

(** Python 3 [round(x, 2)]: float to float with two decimals. *)
Definition round2 (x : Q) : Q := inject_Z (round (x * 100)) / 100.

(** [a <= b] *)
Definition le (a b : Q) : bool := Qle_bool a b.

(** [a >= b] *)
Definition ge (a b : Q) : bool := Qle_bool b a.

(** [a <= x <= b], Python's chained comparison. *)
Definition between (a x b : Q) : bool := le a x && le x b.

(** [x == 0] for a rational in any representation. *)
Definition is_zero (x : Q) : bool := Z.eqb (Qnum x) 0.

End Py.

(** ** Exceptions and results *)

Inductive exn : Type :=
| ZeroDivisionError
| IndexError
| ConfigError (option_name : string).

Inductive result (A : Type) : Type :=
| Ok (a : A)
| Raise (e : exn).

Arguments Ok {A} a.
Arguments Raise {A} e.

Definition result_bind {A B : Type} (r : result A) (f : A -> result B)
  : result B :=
  match r with
  | Ok a => f a
  | Raise e => Raise e
  end.

Declare Scope result_scope.
Delimit Scope result_scope with result.
Notation "x <~ r ;; k" := (result_bind r (fun x => k))
  (at level 61, r at next level, right associativity) : result_scope.

(** ** The reactor's wake times *)

(** Modelled from the spec: the reactor (klippy/reactor.py) is not part of the
    sources; the scheduler interface lets the controller request "fire
    immediately", "fire after 1 unit" (an absolute event time here, as
    [timer_callback] returns [eventtime + 1]) or "never fire again". *)
Inductive waketime : Type :=
| NOW
| At (t : Q)
| NEVER.

(** ** Collaborator calls *)

(** Text passed to [respond_info]. *)
Inductive info : Type :=
| InfoDiameter (d : Q)          (* "Filament diameter: %.2f" % d *)
| InfoRaw (raw : Z)             (* "RAW=%d" % raw *)
| InfoText (s : string).

(** G-code scripts the class runs. *)
Inductive script : Type :=
| M221 (percent : Z).           (* "M221 S%d" % percent *)

(** One call to a collaborator. *)
Inductive call : Type :=
| respond_info (i : info)
| run_script (c : script)
| run_script_from_command (c : script)
| note_filament_present (present : bool).

(** ** The object *)

(** An entry of the FIFO: the tuple [(epos, diameter)]. *)
Definition entry : Type := (Q * Q)%type.

Record FilaSense : Type := mkFilaSense {
  diameter_1 : Q;
  diameter_2 : Q;
  raw_1 : Z;
  raw_2 : Z;
  measurement_interval : Z;
  nominal_diameter : Q;
  measurement_delay : Q;
  max_difference : Q;
  max_diameter : Q;
  min_diameter : Q;
  enabled : bool;
  runout_min_diameter : Q;
  runout_max_diameter : Q;
  logging : bool;
  use_current_diameter_while_delay : bool;
  fifo : list entry;
  raw : Z;
  diameter : Q;
  timer : waketime
}.

Definition set_fifo (v : list entry) (s : FilaSense) : FilaSense :=
  mkFilaSense (diameter_1 s) (diameter_2 s) (raw_1 s) (raw_2 s)
    (measurement_interval s) (nominal_diameter s) (measurement_delay s)
    (max_difference s) (max_diameter s) (min_diameter s) (enabled s)
    (runout_min_diameter s) (runout_max_diameter s) (logging s)
    (use_current_diameter_while_delay s) v (raw s) (diameter s) (timer s).

Definition set_raw (v : Z) (s : FilaSense) : FilaSense :=
  mkFilaSense (diameter_1 s) (diameter_2 s) (raw_1 s) (raw_2 s)
    (measurement_interval s) (nominal_diameter s) (measurement_delay s)
    (max_difference s) (max_diameter s) (min_diameter s) (enabled s)
    (runout_min_diameter s) (runout_max_diameter s) (logging s)
    (use_current_diameter_while_delay s) (fifo s) v (diameter s) (timer s).

Definition set_diameter (v : Q) (s : FilaSense) : FilaSense :=
  mkFilaSense (diameter_1 s) (diameter_2 s) (raw_1 s) (raw_2 s)
    (measurement_interval s) (nominal_diameter s) (measurement_delay s)
    (max_difference s) (max_diameter s) (min_diameter s) (enabled s)
    (runout_min_diameter s) (runout_max_diameter s) (logging s)
    (use_current_diameter_while_delay s) (fifo s) (raw s) v (timer s).

Definition set_enabled (v : bool) (s : FilaSense) : FilaSense :=
  mkFilaSense (diameter_1 s) (diameter_2 s) (raw_1 s) (raw_2 s)
    (measurement_interval s) (nominal_diameter s) (measurement_delay s)
    (max_difference s) (max_diameter s) (min_diameter s) v
    (runout_min_diameter s) (runout_max_diameter s) (logging s)
    (use_current_diameter_while_delay s) (fifo s) (raw s) (diameter s)
    (timer s).

Definition set_logging (v : bool) (s : FilaSense) : FilaSense :=
  mkFilaSense (diameter_1 s) (diameter_2 s) (raw_1 s) (raw_2 s)
    (measurement_interval s) (nominal_diameter s) (measurement_delay s)
    (max_difference s) (max_diameter s) (min_diameter s) (enabled s)
    (runout_min_diameter s) (runout_max_diameter s) v
    (use_current_diameter_while_delay s) (fifo s) (raw s) (diameter s)
    (timer s).

Definition set_timer (v : waketime) (s : FilaSense) : FilaSense :=
  mkFilaSense (diameter_1 s) (diameter_2 s) (raw_1 s) (raw_2 s)
    (measurement_interval s) (nominal_diameter s) (measurement_delay s)
    (max_difference s) (max_diameter s) (min_diameter s) (enabled s)
    (runout_min_diameter s) (runout_max_diameter s) (logging s)
    (use_current_diameter_while_delay s) (fifo s) (raw s) (diameter s) v.

(** ** The monad of methods *)

(** What a method call leaves behind: its result or exception, the object,
    and the collaborator calls it made, oldest first. *)
Record outcome (A : Type) : Type := mkOutcome {
  res : result A;
  self_after : FilaSense;
  calls : list call
}.

Arguments mkOutcome {A} res self_after calls.
Arguments res {A} o.
Arguments self_after {A} o.
Arguments calls {A} o.

Definition M (A : Type) : Type := FilaSense -> outcome A.

Definition ret {A : Type} (a : A) : M A :=
  fun s => mkOutcome (Ok a) s [].

Definition bind {A B : Type} (m : M A) (f : A -> M B) : M B :=
  fun s =>
    let o := m s in
    match res o with
    | Ok a =>
        let o' := f a (self_after o) in
        mkOutcome (res o') (self_after o') (calls o ++ calls o')
    | Raise e => mkOutcome (Raise e) (self_after o) (calls o)
    end.

Definition raise {A : Type} (e : exn) : M A :=
  fun s => mkOutcome (Raise e) s [].

(** Read an attribute of [self]. *)
Definition get {A : Type} (field : FilaSense -> A) : M A :=
  fun s => mkOutcome (Ok (field s)) s [].

(** Assign an attribute of [self]. *)
Definition put (update : FilaSense -> FilaSense) : M unit :=
  fun s => mkOutcome (Ok tt) (update s) [].

(** Call a collaborator. *)
Definition emit (c : call) : M unit :=
  fun s => mkOutcome (Ok tt) s [c].

Declare Scope method_scope.
Delimit Scope method_scope with method.
Notation "x <- m ;; k" := (bind m (fun x => k))
  (at level 61, m at next level, right associativity) : method_scope.
Notation "m ;; k" := (bind m (fun _ => k))
  (at level 61, right associativity) : method_scope.

(** The G-code scripts among a trace of calls, in order. *)
Fixpoint scripts (cs : list call) : list script :=
  match cs with
  | [] => []
  | run_script c :: cs' => c :: scripts cs'
  | run_script_from_command c :: cs' => c :: scripts cs'
  | _ :: cs' => scripts cs'
  end.

(** ** Configuration *)

(** The options of the [filasense] section as the configuration file gives
    them; [None] is an option the file does not set. *)
Record Config : Type := mkConfig {
  cfg_pin : option string;
  cfg_diameter_1 : option Q;
  cfg_diameter_2 : option Q;
  cfg_raw_1 : option Z;
  cfg_raw_2 : option Z;
  cfg_measurement_interval : option Z;
  cfg_nominal_diameter : option Q;
  cfg_measurement_delay : option Q;
  cfg_max_difference : option Q;
  cfg_enabled : option bool;
  cfg_runout_min_diameter : option Q;
  cfg_runout_max_diameter : option Q;
  cfg_logging : option bool;
  cfg_use_current_diameter_while_delay : option bool
}.

(** Modelled from the spec: the configuration accessors
    (klippy/configfile.py) are not part of the sources.  An option is
    validated once at startup; one that is missing takes the default when the
    call gives one and is a fatal configuration error otherwise; a bound
    ([above]) applies to the value the file sets. *)
Definition config_get {A : Type} (name : string) (value : option A)
    (default : option A) : result A :=
  match value with
  | Some v => Ok v
  | None =>
      match default with
      | Some d => Ok d
      | None => Raise (ConfigError name)
      end
  end.

(** Modelled from the spec: [config.getfloat(name, default, above=...)], see
    [config_get]; the value must be strictly above the bound. *)
Definition getfloat (name : string) (value : option Q) (default : option Q)
    (above : option Q) : result Q :=
  match value with
  | Some v =>
      match above with
      | Some bound => if Py.le v bound then Raise (ConfigError name) else Ok v
      | None => Ok v
      end
  | None => config_get name value default
  end.

Definition getint (name : string) (value : option Z) (default : option Z)
  : result Z :=
  config_get name value default.

Definition getboolean (name : string) (value : option bool)
    (default : option bool) : result bool :=
  config_get name value default.

(** Modelled from the spec: [reactor.register_timer(callback)] hands out a
    timer that does not fire until it is rescheduled. *)
Definition register_timer : waketime := NEVER.

(** ** [FilaSense.__init__] *)

Definition __init__ (config : Config) : result FilaSense :=
  (pin <~ config_get "pin" (cfg_pin config) None ;;
   diameter_1 <~ getfloat "diameter_1" (cfg_diameter_1 config) (Some 1.5) None ;;
   diameter_2 <~ getfloat "diameter_2" (cfg_diameter_2 config) (Some 2.0) None ;;
   raw_1 <~ getint "raw_1" (cfg_raw_1 config) (Some 6250%Z) ;;
   raw_2 <~ getint "raw_2" (cfg_raw_2 config) (Some 8750%Z) ;;
   measurement_interval <~
     getint "measurement_interval" (cfg_measurement_interval config)
       (Some 10%Z) ;;
   nominal_diameter <~
     getfloat "nominal_diameter" (cfg_nominal_diameter config) None
       (Some 1.0) ;;
   measurement_delay <~
     getfloat "measurement_delay" (cfg_measurement_delay config) None
       (Some 0.0) ;;
   max_difference <~
     getfloat "max_difference" (cfg_max_difference config) (Some 0.2) None ;;
   let max_diameter := nominal_diameter + max_difference in
   let min_diameter := nominal_diameter - max_difference in
   (* self.diameter = self.nominal_diameter, overwritten below *)
   enabled <~ getboolean "enabled" (cfg_enabled config) (Some false) ;;
   runout_min_diameter <~
     getfloat "runout_min_diameter" (cfg_runout_min_diameter config)
       (Some 1.0) None ;;
   runout_max_diameter <~
     getfloat "runout_max_diameter" (cfg_runout_max_diameter config)
       (Some max_diameter) None ;;
   logging <~ getboolean "logging" (cfg_logging config) (Some false) ;;
   use_current_diameter_while_delay <~
     getboolean "use_current_diameter_while_delay"
       (cfg_use_current_diameter_while_delay config) (Some false) ;;
   Ok {| diameter_1 := diameter_1;
         diameter_2 := diameter_2;
         raw_1 := raw_1;
         raw_2 := raw_2;
         measurement_interval := measurement_interval;
         nominal_diameter := nominal_diameter;
         measurement_delay := measurement_delay;
         max_difference := max_difference;
         max_diameter := max_diameter;
         min_diameter := min_diameter;
         enabled := enabled;
         runout_min_diameter := runout_min_diameter;
         runout_max_diameter := runout_max_diameter;
         logging := logging;
         use_current_diameter_while_delay := use_current_diameter_while_delay;
         fifo := [];
         raw := 0%Z;
         diameter := 0;
         timer := register_timer |})%result.

(** ** Methods *)

Local Open Scope method_scope.

(** [a / b] *)
Definition truediv (a b : Q) : M Q :=
  if Py.is_zero b then raise ZeroDivisionError else ret (a / b).

(** [reactor.update_timer(self.timer, waketime)] *)
Definition update_timer (w : waketime) : M unit := put (set_timer w).

(** klippy:ready callback.  (The toolhead it looks up is the position source;
    [timer_callback] below receives the extruder position [pos[3]] as an
    argument.) *)
Definition handle_ready : M unit :=
  update_timer NOW.

(** ADC callback, in exact arithmetic; [Binary64.adc_callback] has the same
    lines with the roundings of the machine. *)
Definition adc_callback (read_time read_value : Q) : M unit :=
  put (set_raw (Py.round (read_value * 10000))) ;;
  d1 <- get diameter_1 ;;
  d2 <- get diameter_2 ;;
  r1 <- get raw_1 ;;
  r2 <- get raw_2 ;;
  r <- get raw ;;
  slope <- truediv (d2 - d1) (inject_Z (r2 - r1)) ;;
  put (set_diameter (Py.round2 (slope * inject_Z (r - r1) + d1))).

(** [self.fifo[-1]], when there is one. *)
Fixpoint fifo_last (l : list entry) : option entry :=
  match l with
  | [] => None
  | [e] => Some e
  | _ :: l' => fifo_last l'
  end.

(** [self.fifo[0]] *)
Definition fifo_head : M entry :=
  l <- get fifo ;;
  match l with
  | [] => raise IndexError
  | e :: _ => ret e
  end.

(** [self.fifo.pop(0)] *)
Definition fifo_pop0 : M entry :=
  l <- get fifo ;;
  match l with
  | [] => raise IndexError
  | e :: l' => put (set_fifo l') ;; ret e
  end.

(** [not self.fifo or
     epos_projected >= self.fifo[-1][0] + self.measurement_interval],
    with the exact sum; [Binary64.measurement_due] has the rounded one. *)
Definition measurement_due (l : list entry) (interval : Z)
    (epos_projected : Q) : bool :=
  match fifo_last l with
  | None => true
  | Some tail => Py.ge epos_projected (fst tail + inject_Z interval)
  end.

(** Lines 80-84 of [timer_callback]: append projected extruder position and
    diameter to the FIFO tail if the measurement interval has passed or the
    FIFO is empty. *)
Definition append_measurement (epos_projected : Q) : M unit :=
  l <- get fifo ;;
  interval <- get measurement_interval ;;
  if measurement_due l interval epos_projected then
    d <- get diameter ;;
    put (set_fifo (l ++ [(epos_projected, d)])) ;;
    log <- get logging ;;
    if log then
      d' <- get diameter ;;
      emit (respond_info (InfoDiameter d'))
    else ret tt
  else ret tt.

(** Line 86: [self.runout_min_diameter <= self.diameter <=
    self.runout_max_diameter]. *)
Definition filament_present (s : FilaSense) : bool :=
  Py.between (runout_min_diameter s) (diameter s) (runout_max_diameter s).

(** Lines 89-98: the diameter taken from the FIFO head once its extruder
    position has been reached, the current or the nominal one before. *)
Definition select_diameter (epos : Q) : M Q :=
  head <- fifo_head ;;
  if Py.ge epos (fst head) then
    e <- fifo_pop0 ;;
    ret (snd e)
  else
    use_current <- get use_current_diameter_while_delay ;;
    if use_current then get diameter
    else get nominal_diameter.

(** Lines 99-101: use nominal diameter if determined diameter is out of
    bounds. *)
Definition bound_diameter (diameter_to_use : Q) : M Q :=
  lo <- get min_diameter ;;
  hi <- get max_diameter ;;
  if negb (Py.between lo diameter_to_use hi) then get nominal_diameter
  else ret diameter_to_use.

(** Lines 102-103: update extrusion multiplier. *)
Definition update_multiplier (diameter_to_use : Q) : M unit :=
  nominal <- get nominal_diameter ;;
  ratio <- truediv nominal diameter_to_use ;;
  emit (run_script (M221 (Py.round (ratio ^ 2 * 100)))).

(** Extrusion multiplier update timer callback; [epos] is [pos[3]] of the
    toolhead position. *)
Definition timer_callback (eventtime epos : Q) : M waketime :=
  delay <- get measurement_delay ;;
  let epos_projected := epos + delay in
  append_measurement epos_projected ;;
  (* check runout *)
  present <- get filament_present ;;
  emit (note_filament_present present) ;;
  (if present then
     diameter_to_use <- select_diameter epos ;;
     diameter_to_use <- bound_diameter diameter_to_use ;;
     update_multiplier diameter_to_use
   else
     (* filament not present; set extrusion multiplier to 100% and clear
        FIFO *)
     emit (run_script (M221 100)) ;;
     put (set_fifo [])) ;;
  on <- get enabled ;;
  if on then ret (At (eventtime + 1))
  else ret NEVER.

Definition cmd_QUERY_FILAMENT_DIAMETER : M unit :=
  present <- get filament_present ;;
  d <- get diameter ;;
  let response :=
    if present then InfoDiameter d
    else InfoText "Filament NOT present" in
  emit (respond_info response).

Definition cmd_RESET_FILAMENT_DIAMETER_SENSOR : M unit :=
  put (set_fifo []) ;;
  emit (respond_info (InfoText "Filament diameter measurements cleared!")) ;;
  (* set extrusion multiplier to 100% *)
  emit (run_script_from_command (M221 100)).

Definition cmd_ENABLE_FILAMENT_DIAMETER_SENSOR : M unit :=
  on <- get enabled ;;
  response <-
    (if on then ret (InfoText "Filament diameter sensor is already ON")
     else
       put (set_enabled true) ;;
       (* start extrusion multiplier update timer *)
       update_timer NOW ;;
       ret (InfoText "Filament diameter sensor turned ON")) ;;
  emit (respond_info response).

Definition cmd_DISABLE_FILAMENT_DIAMETER_SENSOR : M unit :=
  on <- get enabled ;;
  response <-
    (if negb on then ret (InfoText "Filament diameter sensor is already OFF")
     else
       put (set_enabled false) ;;
       (* stop extrusion multiplier update timer *)
       update_timer NEVER ;;
       (* clear FIFO *)
       put (set_fifo []) ;;
       (* set extrusion multiplier to 100% *)
       emit (run_script_from_command (M221 100)) ;;
       ret (InfoText "Filament diameter sensor turned OFF")) ;;
  emit (respond_info response).

Definition cmd_QUERY_RAW_FILAMENT_DIAMETER : M unit :=
  r <- get raw ;;
  emit (respond_info (InfoRaw r)).

Definition get_status (eventtime : Q) : M (Q * Z * bool) :=
  d <- get diameter ;;
  r <- get raw ;;
  on <- get enabled ;;
  ret (d, r, on).

Definition cmd_ENABLE_FILAMENT_DIAMETER_LOG : M unit :=
  put (set_logging true) ;;
  emit (respond_info (InfoText "Filament diameter logging turned ON")).

Definition cmd_DISABLE_FILAMENT_DIAMETER_LOG : M unit :=
  put (set_logging false) ;;
  emit (respond_info (InfoText "Filament diameter logging turned OFF")).

Definition load_config (config : Config) : result FilaSense :=
  __init__ config.

(** ** The reactor and the events the object reacts to *)

(** Modelled from the spec: a timer (klippy/reactor.py, not part of the
    sources) fires once the reactor's time has reached its wake time and
    never when that is [NEVER]. *)
Definition timer_due (w : waketime) (eventtime : Q) : bool :=
  match w with
  | NOW => true
  | At t => Py.ge eventtime t
  | NEVER => false
  end.

(** Modelled from the spec: the reactor calls the callback of a timer that is
    due and reschedules the timer at the wake time the callback returns. *)
Definition reactor_dispatch (eventtime epos : Q) : M unit :=
  w <- get timer ;;
  if timer_due w eventtime then
    w' <- timer_callback eventtime epos ;;
    update_timer w'
  else ret tt.

Inductive command : Type :=
| QUERY_FILAMENT_DIAMETER
| RESET_FILAMENT_DIAMETER_SENSOR
| ENABLE_FILAMENT_DIAMETER_SENSOR
| DISABLE_FILAMENT_DIAMETER_SENSOR
| QUERY_RAW_FILAMENT_DIAMETER
| ENABLE_FILAMENT_DIAMETER_LOG
| DISABLE_FILAMENT_DIAMETER_LOG.

(** The handlers [__init__] registers with the G-code dispatcher. *)
Definition run_command (c : command) : M unit :=
  match c with
  | QUERY_FILAMENT_DIAMETER => cmd_QUERY_FILAMENT_DIAMETER
  | RESET_FILAMENT_DIAMETER_SENSOR => cmd_RESET_FILAMENT_DIAMETER_SENSOR
  | ENABLE_FILAMENT_DIAMETER_SENSOR => cmd_ENABLE_FILAMENT_DIAMETER_SENSOR
  | DISABLE_FILAMENT_DIAMETER_SENSOR => cmd_DISABLE_FILAMENT_DIAMETER_SENSOR
  | QUERY_RAW_FILAMENT_DIAMETER => cmd_QUERY_RAW_FILAMENT_DIAMETER
  | ENABLE_FILAMENT_DIAMETER_LOG => cmd_ENABLE_FILAMENT_DIAMETER_LOG
  | DISABLE_FILAMENT_DIAMETER_LOG => cmd_DISABLE_FILAMENT_DIAMETER_LOG
  end.

Inductive event : Type :=
| klippy_ready
| adc_report (read_time read_value : Q)
| reactor_time (eventtime epos : Q)
| gcode (c : command).

Definition handle (e : event) : M unit :=
  match e with
  | klippy_ready => handle_ready
  | adc_report read_time read_value => adc_callback read_time read_value
  | reactor_time eventtime epos => reactor_dispatch eventtime epos
  | gcode c => run_command c
  end.

(** The states the object goes through: the one [load_config] builds, and
    the one each event leaves (also when its handler raised). *)
Inductive reachable : FilaSense -> Prop :=
| reachable_init config s :
    load_config config = Ok s -> reachable s
| reachable_event s e :
    reachable s -> reachable (self_after (handle e s)).

(** ** Example configurations *)

(** Only [pin], [nominal_diameter] and [measurement_delay] set. *)
Definition minimal_config : Config :=
  {| cfg_pin := Some "PA1"%string;
     cfg_diameter_1 := None;
     cfg_diameter_2 := None;
     cfg_raw_1 := None;
     cfg_raw_2 := None;
     cfg_measurement_interval := None;
     cfg_nominal_diameter := Some 1.75;
     cfg_measurement_delay := Some 70;
     cfg_max_difference := None;
     cfg_enabled := None;
     cfg_runout_min_diameter := None;
     cfg_runout_max_diameter := None;
     cfg_logging := None;
     cfg_use_current_diameter_while_delay := None |}.

(** ** What [__init__] fixes *)

(** The attributes no method assigns after [__init__]. *)
Record Settings : Type := mkSettings {
  calibration : Q * Q * Z * Z;
  interval_and_delay : Z * Q;
  nominal_and_bounds : Q * Q * Q * Q;
  runout_bounds : Q * Q;
  delay_policy : bool
}.

Definition settings (s : FilaSense) : Settings :=
  {| calibration := (diameter_1 s, diameter_2 s, raw_1 s, raw_2 s);
     interval_and_delay := (measurement_interval s, measurement_delay s);
     nominal_and_bounds :=
       (nominal_diameter s, max_difference s, max_diameter s, min_diameter s);
     runout_bounds := (runout_min_diameter s, runout_max_diameter s);
     delay_policy := use_current_diameter_while_delay s |}.

(** A method that leaves the settings alone, whatever it returns or raises. *)
Definition keeps_settings {A : Type} (m : M A) : Prop :=
  forall s, settings (self_after (m s)) = settings s.

(** What [__init__] guarantees about the settings. *)
Definition valid_settings (s : FilaSense) : Prop :=
  1 < nominal_diameter s /\
  0 < measurement_delay s /\
  max_diameter s = nominal_diameter s + max_difference s /\
  min_diameter s = nominal_diameter s - max_difference s.


(** ** Observations of a tick *)

(** What the timer returns to the reactor. *)
Definition next_waketime (eventtime : Q) (s : FilaSense) : waketime :=
  if enabled s then At (eventtime + 1) else NEVER.

(** The diameter lines 99-101 leave in [diameter_to_use]. *)
Definition bounded (s : FilaSense) (d : Q) : Q :=
  if negb (Py.between (min_diameter s) d (max_diameter s))
  then nominal_diameter s else d.

(** The object once lines 80-84 of a tick at [epos] have run. *)
Definition after_append (epos : Q) (s : FilaSense) : FilaSense :=
  self_after (append_measurement (epos + measurement_delay s) s).

(** [diameter_to_use] as lines 89-98 of a tick at [epos] resolve it: from the
    FIFO head, the current reading or the nominal diameter. *)
Definition selected_diameter (epos : Q) (s : FilaSense) : result Q :=
  res (select_diameter epos (after_append epos s)).

(** [diameter_to_use] as line 103 of a tick at [epos] reads it. *)
Definition diameter_to_use (epos : Q) (s : FilaSense) : result Q :=
  res ((d <- select_diameter epos ;; bound_diameter d) (after_append epos s)).

(** The object after a run of events. *)
Fixpoint run_events (es : list event) (s : FilaSense) : FilaSense :=
  match es with
  | [] => s
  | e :: es' => run_events es' (self_after (handle e s))
  end.

(** ** Order in the FIFO *)


(** The texts passed to [respond_info] among a trace of calls, in order. *)
Fixpoint responses (cs : list call) : list info :=
  match cs with
  | [] => []
  | respond_info i :: cs' => i :: responses cs'
  | _ :: cs' => responses cs'
  end.

(** ** Example states *)

(** A running sensor with three queued measurements and no filament at the
    sensor. *)
Definition absent_tick_state : FilaSense :=
  {| diameter_1 := 1.5; diameter_2 := 2.0; raw_1 := 6250; raw_2 := 8750;
     measurement_interval := 10; nominal_diameter := 1.75;
     measurement_delay := 70; max_difference := 0.2;
     max_diameter := 1.95; min_diameter := 1.55; enabled := true;
     runout_min_diameter := 1.0; runout_max_diameter := 1.95;
     logging := true; use_current_diameter_while_delay := false;
     fifo := [(70, 1.75); (80, 1.74); (90, 1.76)];
     raw := 2500; diameter := 0.5; timer := At 12 |}.

(** The sensor [load_config] builds from [minimal_config]. *)
Definition minimal_sensor : FilaSense :=
  match load_config minimal_config with
  | Ok s => s
  | Raise _ => absent_tick_state
  end.

(** The printer gets ready, the sensor is enabled and reads a diameter of
    1.20 (raw 4750), and the timer fires at extruder position 0: the
    measurement is queued for position 70. *)
Definition thin_filament_events : list event :=
  [klippy_ready;
   gcode ENABLE_FILAMENT_DIAMETER_SENSOR;
   adc_report 0 0.475;
   reactor_time 0 0].

Definition thin_filament_sensor : FilaSense :=
  run_events thin_filament_events minimal_sensor.

(** [minimal_config] with a wider band of plausible diameters, enabled from
    the start. *)
Definition wide_config : Config :=
  {| cfg_pin := Some "PA1"%string;
     cfg_diameter_1 := None;
     cfg_diameter_2 := None;
     cfg_raw_1 := None;
     cfg_raw_2 := None;
     cfg_measurement_interval := None;
     cfg_nominal_diameter := Some 1.75;
     cfg_measurement_delay := Some 70;
     cfg_max_difference := Some 0.3;
     cfg_enabled := Some true;
     cfg_runout_min_diameter := None;
     cfg_runout_max_diameter := None;
     cfg_logging := None;
     cfg_use_current_diameter_while_delay := None |}.

Definition wide_sensor : FilaSense :=
  match load_config wide_config with
  | Ok s => s
  | Raise _ => absent_tick_state
  end.

(** The sensor of [wide_config] after it measured [read_value] and queued the
    diameter at extruder position 0 for position 70. *)
Definition queued_reading (read_value : Q) : FilaSense :=
  run_events [klippy_ready; adc_report 0 read_value; reactor_time 0 0]
    wide_sensor.

(** [minimal_config] with both calibration points at the same raw value. *)
Definition flat_calibration_config : Config :=
  {| cfg_pin := Some "PA1"%string;
     cfg_diameter_1 := None;
     cfg_diameter_2 := None;
     cfg_raw_1 := Some 6250%Z;
     cfg_raw_2 := Some 6250%Z;
     cfg_measurement_interval := None;
     cfg_nominal_diameter := Some 1.75;
     cfg_measurement_delay := Some 70;
     cfg_max_difference := None;
     cfg_enabled := None;
     cfg_runout_min_diameter := None;
     cfg_runout_max_diameter := None;
     cfg_logging := None;
     cfg_use_current_diameter_while_delay := None |}.

Definition flat_calibration_sensor : FilaSense :=
  match load_config flat_calibration_config with
  | Ok s => s
  | Raise _ => absent_tick_state
  end.

(** [minimal_config] with a negative measurement interval. *)
Definition negative_interval_config : Config :=
  {| cfg_pin := Some "PA1"%string;
     cfg_diameter_1 := None;
     cfg_diameter_2 := None;
     cfg_raw_1 := None;
     cfg_raw_2 := None;
     cfg_measurement_interval := Some (-5)%Z;
     cfg_nominal_diameter := Some 1.75;
     cfg_measurement_delay := Some 70;
     cfg_max_difference := None;
     cfg_enabled := None;
     cfg_runout_min_diameter := None;
     cfg_runout_max_diameter := None;
     cfg_logging := None;
     cfg_use_current_diameter_while_delay := None |}.

Definition negative_interval_sensor : FilaSense :=
  match load_config negative_interval_config with
  | Ok s => s
  | Raise _ => absent_tick_state
  end.

(** ** Observations of a run *)


(** The reports to the runout helper among a trace of calls, in order. *)
Fixpoint presence_notes (cs : list call) : list bool :=
  match cs with
  | [] => []
  | note_filament_present b :: cs' => b :: presence_notes cs'
  | _ :: cs' => presence_notes cs'
  end.



(** The sensor of [minimal_config] once the printer is ready and the ADC has
    reported a diameter of 1.75; nothing is queued yet. *)
Definition fresh_reading_sensor : FilaSense :=
  run_events [klippy_ready; adc_report 0 0.75] minimal_sensor.

(** ** Lines 70-72 and 80-82 in binary64 *)

(** The same lines on IEEE 754 binary64 values, the floats of Python, with
    every operation rounded as the machine rounds it.  The claims on what
    the estimator returns at a calibration point and on the distance between
    queued positions are about these roundings, which the exact arithmetic
    above leaves out. *)
Module Binary64.

Inductive raised : Type :=
| ZeroDivisionError
| OverflowError
| ValueError.

Inductive answer (A : Type) : Type :=
| Returns (a : A)
| Raises (e : raised).

Arguments Returns {A} a.
Arguments Raises {A} e.

Definition and_then {A B : Type} (r : answer A) (f : A -> answer B)
  : answer B :=
  match r with
  | Returns a => f a
  | Raises e => Raises e
  end.

(** The quotient [n / d] of two positive integers with the sign [sign],
    rounded to the nearest binary64 value, ties to even. *)
Definition nearest (sign : bool) (n d : positive) : spec_float :=
  let '(q, e, l) := SFdiv_core_binary prec emax (Zpos n) 0 (Zpos d) 0 in
  binary_round_aux prec emax sign q e l.

Definition nearest_Z (n : Z) (d : positive) : spec_float :=
  match n with
  | Z0 => S754_zero false
  | Zpos p => nearest false p d
  | Zneg p => nearest true p d
  end.

(** An int where Python needs a float ([float / int], [float * int],
    [float + int]). *)
Definition float_of_int (z : Z) : answer float :=
  match nearest_Z z 1 with
  | S754_infinity _ => Raises OverflowError
  | x => Returns (SF2Prim x)
  end.

(** [scale] times [m * 2^e], to the nearest integer, ties to even. *)
Definition scaled_round (m : positive) (e : Z) (scale : positive) : Z :=
  let n := (Zpos m * Zpos scale)%Z in
  match e with
  | Zneg k => Py.round_fraction n (2 ^ k)
  | _ => (n * 2 ^ e)%Z
  end.

(** [round(x)]: float to int. *)
Definition round (x : float) : answer Z :=
  match Prim2SF x with
  | S754_nan => Raises ValueError
  | S754_infinity _ => Raises OverflowError
  | S754_zero _ => Returns 0%Z
  | S754_finite s m e =>
      Returns (if s then (- scaled_round m e 1)%Z else scaled_round m e 1)
  end.

(** [round(x, 2)]: the binary64 value nearest to the exact value of [x]
    rounded to two decimals. *)
Definition round2 (x : float) : answer float :=
  match Prim2SF x with
  | S754_finite s m e =>
      match nearest_Z (scaled_round m e 100) 100 with
      | S754_infinity _ => Raises OverflowError
      | y => Returns (SF2Prim (if s then SFopp y else y))
      end
  | _ => Returns x
  end.

(** [a / b] *)
Definition truediv (a b : float) : answer float :=
  if (b =? 0)%float then Raises ZeroDivisionError else Returns (a / b)%float.

(** The attributes [adc_callback] reads and assigns. *)
Record Estimator : Type := mkEstimator {
  diameter_1 : float;
  diameter_2 : float;
  raw_1 : Z;
  raw_2 : Z;
  raw : Z;
  diameter : float
}.

Definition set_raw (v : Z) (s : Estimator) : Estimator :=
  mkEstimator (diameter_1 s) (diameter_2 s) (raw_1 s) (raw_2 s) v
    (diameter s).

Definition set_diameter (v : float) (s : Estimator) : Estimator :=
  mkEstimator (diameter_1 s) (diameter_2 s) (raw_1 s) (raw_2 s) (raw s) v.

(** The value line 72 rounds:
    [(diameter_2 - diameter_1) / (raw_2 - raw_1) * (raw - raw_1)
     + diameter_1]. *)
Definition interpolate (s : Estimator) : answer float :=
  and_then (float_of_int (raw_2 s - raw_1 s)) (fun span =>
  and_then (truediv (diameter_2 s - diameter_1 s)%float span) (fun slope =>
  and_then (float_of_int (raw s - raw_1 s)) (fun offset =>
  Returns (slope * offset + diameter_1 s)%float))).

(** ADC callback: the object it leaves and the exception, if it raised. *)
Definition adc_callback (read_time read_value : float) (s : Estimator)
  : Estimator * option raised :=
  match round (read_value * 10000)%float with
  | Raises e => (s, Some e)
  | Returns r =>
      let s1 := set_raw r s in
      match and_then (interpolate s1) round2 with
      | Raises e => (s1, Some e)
      | Returns d => (set_diameter d s1, None)
      end
  end.


(** Line 79: [epos + self.measurement_delay]. *)
Definition epos_projected (epos measurement_delay : float) : float :=
  (epos + measurement_delay)%float.

(** An entry of the FIFO: the tuple [(epos_projected, diameter)]. *)
Definition entry : Type := (float * float)%type.

(** [self.fifo[-1]], when there is one. *)
Fixpoint fifo_last (l : list entry) : option entry :=
  match l with
  | [] => None
  | [e] => Some e
  | _ :: l' => fifo_last l'
  end.

(** [not self.fifo or
     epos_projected >= self.fifo[-1][0] + self.measurement_interval] *)
Definition measurement_due (l : list entry) (interval : Z)
    (epos_projected : float) : answer bool :=
  match fifo_last l with
  | None => Returns true
  | Some tail =>
      and_then (float_of_int interval) (fun i =>
      Returns (fst tail + i <=? epos_projected)%float)
  end.

(** Lines 80-82: the FIFO after an attempt to enqueue
    [(epos_projected, diameter)]. *)
Definition append_measurement (interval : Z) (l : list entry) (a : entry)
  : answer (list entry) :=
  and_then (measurement_due l interval (fst a)) (fun due =>
  Returns (if due then l ++ [a] else l)).

(** A sequence of attempts, oldest first. *)
Fixpoint enqueue_attempts (interval : Z) (attempts : list entry)
    (l : list entry) : answer (list entry) :=
  match attempts with
  | [] => Returns l
  | a :: rest =>
      and_then (append_measurement interval l a) (fun l' =>
      enqueue_attempts interval rest l')
  end.

(** Each position is at least the binary64 sum of the position before it
    and the interval [i]. *)
Fixpoint spaced_by (i : float) (l : list entry) : Prop :=
  match l with
  | a :: (b :: _) as l' =>
      (fst a + i <=? fst b)%float = true /\ spaced_by i l'
  | _ => True
  end.

(** The exact value of a binary64 value that is finite. *)
Definition to_Q (x : float) : Q :=
  match Prim2SF x with
  | S754_finite s m e =>
      let v :=
        match e with
        | Zneg k => Zpos m # (2 ^ k)
        | _ => inject_Z (Zpos m * 2 ^ e)
        end in
      if s then Qopp v else v
  | _ => 0%Q
  end.


End Binary64.

(** * Verification *)

(** ** Laws of the monad *)

Lemma outcome_eta {A : Type} (o : outcome A) :
  mkOutcome (res o) (self_after o) (calls o) = o.
Proof. destruct o; reflexivity. Qed.

Lemma bind_get {A B : Type} (field : FilaSense -> A) (k : A -> M B) s :
  bind (get field) k s = k (field s) s.
Proof. unfold bind, get; cbn. apply outcome_eta. Qed.

Lemma bind_put {B : Type} update (k : unit -> M B) s :
  bind (put update) k s = k tt (update s).
Proof. unfold bind, put; cbn. apply outcome_eta. Qed.

Lemma bind_ret {A B : Type} (a : A) (k : A -> M B) s :
  bind (ret a) k s = k a s.
Proof. unfold bind, ret; cbn. apply outcome_eta. Qed.

Lemma bind_raise {A B : Type} e (k : A -> M B) s :
  bind (raise e) k s = raise e s.
Proof. reflexivity. Qed.

Lemma bind_emit {B : Type} c (k : unit -> M B) s :
  bind (emit c) k s =
  mkOutcome (res (k tt s)) (self_after (k tt s)) (c :: calls (k tt s)).
Proof. reflexivity. Qed.

Lemma bind_assoc {A B C : Type} (m : M A) (f : A -> M B) (g : B -> M C) s :
  bind (bind m f) g s = bind m (fun a => bind (f a) g) s.
Proof.
  unfold bind. destruct (m s) as [[a|e] s1 c1]; cbn; [|reflexivity].
  destruct (f a s1) as [[b|e] s2 c2]; cbn; [|reflexivity].
  rewrite app_assoc. reflexivity.
Qed.

(** A step that returns hands over to the rest of the method. *)
Lemma bind_returns {A B : Type} (m : M A) (k : A -> M B) s a s1 c1 :
  m s = mkOutcome (Ok a) s1 c1 ->
  bind m k s =
  mkOutcome (res (k a s1)) (self_after (k a s1)) (c1 ++ calls (k a s1)).
Proof. intros H. unfold bind. rewrite H. reflexivity. Qed.

(** A step that raises ends the method. *)
Lemma bind_raises {A B : Type} (m : M A) (k : A -> M B) s e s1 c1 :
  m s = mkOutcome (Raise e) s1 c1 ->
  bind m k s = mkOutcome (Raise e) s1 c1.
Proof. intros H. unfold bind. rewrite H. reflexivity. Qed.

Create Rewrite HintDb method.
#[local] Hint Rewrite @bind_get @bind_put @bind_ret @bind_raise @bind_emit
  : method.

Ltac method_steps := autorewrite with method; cbn [res self_after calls].

(** The same through nested sequences. *)
Ltac method_run :=
  repeat progress
    (rewrite ?bind_assoc; autorewrite with method;
     cbn [res self_after calls]).

(** ** Numerics *)

Lemma le_spec a b : Py.le a b = true <-> a <= b.
Proof. apply Qle_bool_iff. Qed.

Lemma le_false a b : Py.le a b = false <-> b < a.
Proof.
  unfold Py.le. split; intros H.
  - apply Qnot_le_lt. intros Hle. apply Qle_bool_iff in Hle. congruence.
  - destruct (Qle_bool a b) eqn:E; [|reflexivity].
    apply Qle_bool_iff in E. exfalso. exact (Qlt_not_le _ _ H E).
Qed.

Lemma ge_spec a b : Py.ge a b = true <-> b <= a.
Proof. apply Qle_bool_iff. Qed.

Lemma between_spec a x b : Py.between a x b = true <-> a <= x <= b.
Proof.
  unfold Py.between. rewrite andb_true_iff, !le_spec. reflexivity.
Qed.

Lemma is_zero_spec x : Py.is_zero x = true <-> x == 0.
Proof.
  unfold Py.is_zero, Qeq. rewrite Z.eqb_eq. cbn. lia.
Qed.

Lemma is_zero_false x : Py.is_zero x = false <-> ~ x == 0.
Proof.
  rewrite <- is_zero_spec. destruct (Py.is_zero x); split; congruence.
Qed.

(** [round] does not depend on how the fraction is written. *)
Lemma round_Qeq x y : x == y -> Py.round x = Py.round y.
Proof.
  intros H. unfold Py.round. rewrite (Qred_complete _ _ H). reflexivity.
Qed.

(** ** The steps of [timer_callback] *)

Lemma fifo_last_app l e : fifo_last (l ++ [e]) = Some e.
Proof.
  induction l as [|a l IH]; [reflexivity|].
  cbn [app fifo_last]. rewrite IH.
  destruct (l ++ [e]) eqn:E; [|reflexivity].
  destruct l; discriminate.
Qed.

Lemma fifo_last_none l : fifo_last l = None -> l = [].
Proof.
  induction l as [|a l IH]; [reflexivity|].
  cbn [fifo_last]. destruct l as [|b l]; [discriminate|].
  intros H. specialize (IH H). discriminate.
Qed.

Lemma append_measurement_run p s :
  append_measurement p s =
  if measurement_due (fifo s) (measurement_interval s) p then
    mkOutcome (Ok tt) (set_fifo (fifo s ++ [(p, diameter s)]) s)
      (if logging s then [respond_info (InfoDiameter (diameter s))] else [])
  else mkOutcome (Ok tt) s [].
Proof.
  unfold append_measurement. method_steps.
  destruct (measurement_due _ _ _); [|reflexivity].
  method_steps. cbn.
  destruct (logging s); method_steps; reflexivity.
Qed.

Lemma append_measurement_returns p s :
  exists c,
    append_measurement p s =
    mkOutcome (Ok tt)
      (set_fifo (if measurement_due (fifo s) (measurement_interval s) p
                 then fifo s ++ [(p, diameter s)] else fifo s) s) c /\
    scripts c = [].
Proof.
  rewrite append_measurement_run.
  destruct (measurement_due _ _ _).
  - eexists; split; [reflexivity|]. destruct (logging s); reflexivity.
  - exists []. split; [|reflexivity]. destruct s; reflexivity.
Qed.

Lemma append_measurement_nonempty p s :
  fifo (self_after (append_measurement p s)) <> [].
Proof.
  rewrite append_measurement_run.
  destruct (measurement_due _ _ _) eqn:E; cbn.
  - destruct (fifo s); discriminate.
  - unfold measurement_due in E. intros H. rewrite H in E. discriminate.
Qed.

Lemma select_diameter_run epos s :
  select_diameter epos s =
  match fifo s with
  | [] => mkOutcome (Raise IndexError) s []
  | head :: rest =>
      if Py.ge epos (fst head) then
        mkOutcome (Ok (snd head)) (set_fifo rest s) []
      else
        mkOutcome
          (Ok (if use_current_diameter_while_delay s then diameter s
               else nominal_diameter s)) s []
  end.
Proof.
  unfold select_diameter, fifo_head, fifo_pop0. rewrite bind_assoc.
  method_steps.
  destruct (fifo s) as [|head rest] eqn:E; [reflexivity|].
  method_steps.
  destruct (Py.ge epos (fst head)).
  - rewrite bind_assoc. method_steps. rewrite E. rewrite bind_assoc.
    method_steps. reflexivity.
  - method_steps.
    destruct (use_current_diameter_while_delay s); reflexivity.
Qed.

Lemma bound_diameter_run d s :
  bound_diameter d s =
  mkOutcome
    (Ok (if negb (Py.between (min_diameter s) d (max_diameter s))
         then nominal_diameter s else d)) s [].
Proof.
  unfold bound_diameter. method_steps.
  destruct (negb _); reflexivity.
Qed.

Lemma update_multiplier_run d s :
  update_multiplier d s =
  if Py.is_zero d then mkOutcome (Raise ZeroDivisionError) s []
  else
    mkOutcome (Ok tt) s
      [run_script (M221 (Py.round ((nominal_diameter s / d) ^ 2 * 100)))].
Proof.
  unfold update_multiplier, truediv. method_steps.
  destruct (Py.is_zero d); method_steps; reflexivity.
Qed.

(** [timer_callback] from the state [s1] and the calls [c1] its first step
    leaves, filament present. *)
Lemma timer_callback_present eventtime epos s s1 c1 head rest :
  append_measurement (epos + measurement_delay s) s = mkOutcome (Ok tt) s1 c1 ->
  filament_present s1 = true ->
  fifo s1 = head :: rest ->
  let popped := Py.ge epos (fst head) in
  let s2 := if popped then set_fifo rest s1 else s1 in
  let d :=
    bounded s1
      (if popped then snd head
       else if use_current_diameter_while_delay s1 then diameter s1
            else nominal_diameter s1) in
  timer_callback eventtime epos s =
  if Py.is_zero d then
    mkOutcome (Raise ZeroDivisionError) s2
      (c1 ++ [note_filament_present true])
  else
    mkOutcome (Ok (next_waketime eventtime s1)) s2
      (c1 ++ [note_filament_present true;
              run_script
                (M221 (Py.round ((nominal_diameter s1 / d) ^ 2 * 100)))]).
Proof.
  intros Happend Hpresent Hfifo popped s2 d.
  unfold timer_callback. rewrite bind_get.
  rewrite (bind_returns _ _ _ _ _ _ Happend).
  method_steps. rewrite Hpresent.
  rewrite !bind_assoc.
  assert (Hsel : select_diameter epos s1 =
                 mkOutcome
                   (Ok (if popped then snd head
                        else if use_current_diameter_while_delay s1
                             then diameter s1 else nominal_diameter s1))
                   s2 []).
  { rewrite select_diameter_run, Hfifo. subst popped s2.
    destruct (Py.ge epos (fst head)); reflexivity. }
  rewrite (bind_returns _ _ _ _ _ _ Hsel). cbn [app].
  rewrite bind_assoc.
  assert (Hfields : min_diameter s2 = min_diameter s1 /\
                    max_diameter s2 = max_diameter s1 /\
                    nominal_diameter s2 = nominal_diameter s1 /\
                    enabled s2 = enabled s1).
  { subst s2. destruct popped; repeat split; reflexivity. }
  destruct Hfields as (Hmin & Hmax & Hnom & Hen).
  rewrite (bind_returns _ _ _ _ _ _ (bound_diameter_run _ s2)). cbn [app].
  unfold bounded in d. rewrite Hmin, Hmax, Hnom. fold d.
  pose proof (update_multiplier_run d s2) as Hupd. rewrite Hnom in Hupd.
  destruct (Py.is_zero d).
  - rewrite (bind_raises _ _ _ _ _ _ Hupd). reflexivity.
  - rewrite (bind_returns _ _ _ _ _ _ Hupd). method_steps.
    unfold next_waketime. rewrite Hen.
    destruct (enabled s1); reflexivity.
Qed.

(** [timer_callback] from the state [s1] and the calls [c1] its first step
    leaves, filament not present. *)
Lemma timer_callback_absent eventtime epos s s1 c1 :
  append_measurement (epos + measurement_delay s) s = mkOutcome (Ok tt) s1 c1 ->
  filament_present s1 = false ->
  timer_callback eventtime epos s =
  mkOutcome (Ok (next_waketime eventtime s1)) (set_fifo [] s1)
    (c1 ++ [note_filament_present false; run_script (M221 100)]).
Proof.
  intros Happend Habsent.
  unfold timer_callback. rewrite bind_get.
  rewrite (bind_returns _ _ _ _ _ _ Happend).
  method_steps. rewrite Habsent.
  rewrite !bind_assoc. method_steps.
  unfold next_waketime. cbn [enabled set_fifo].
  destruct (enabled s1); reflexivity.
Qed.

Lemma scripts_app c1 c2 : scripts (c1 ++ c2) = scripts c1 ++ scripts c2.
Proof.
  induction c1 as [|c c1 IH]; [reflexivity|].
  destruct c; cbn; rewrite IH; reflexivity.
Qed.

Lemma filament_present_spec s :
  filament_present s = true <->
  runout_min_diameter s <= diameter s <= runout_max_diameter s.
Proof. apply between_spec. Qed.

Lemma filament_present_false s :
  ~ runout_min_diameter s <= diameter s <= runout_max_diameter s ->
  filament_present s = false.
Proof.
  intros H. destruct (filament_present s) eqn:E; [|reflexivity].
  apply filament_present_spec in E. contradiction.
Qed.

(** The first step of a tick returns; it touches the FIFO only. *)
Lemma after_append_run epos s :
  exists c,
    append_measurement (epos + measurement_delay s) s =
    mkOutcome (Ok tt) (after_append epos s) c /\
    scripts c = [] /\
    after_append epos s =
    set_fifo
      (if measurement_due (fifo s) (measurement_interval s)
            (epos + measurement_delay s)
       then fifo s ++ [(epos + measurement_delay s, diameter s)]
       else fifo s) s.
Proof.
  unfold after_append.
  destruct (append_measurement_returns (epos + measurement_delay s) s)
    as (c & Hrun & Hc).
  exists c. rewrite Hrun. cbn [self_after]. auto.
Qed.

Lemma after_append_nonempty epos s : fifo (after_append epos s) <> [].
Proof. apply append_measurement_nonempty. Qed.

Lemma after_append_present epos s :
  filament_present (after_append epos s) = filament_present s.
Proof.
  destruct (after_append_run epos s) as (c & _ & _ & ->). reflexivity.
Qed.

(** ** C3: a tick without filament *)

(** C3.  A tick in which the current diameter lies outside
    [[runout_min_diameter, runout_max_diameter]] returns normally, runs
    exactly one G-code script, [M221 S100], reports the absence to the runout
    helper and leaves the FIFO empty, whatever the FIFO held before. *)
Theorem absent_tick_resets (s : FilaSense) (eventtime epos : Q) :
  ~ runout_min_diameter s <= diameter s <= runout_max_diameter s ->
  let o := timer_callback eventtime epos s in
  res o = Ok (next_waketime eventtime s) /\
  scripts (calls o) = [M221 100] /\
  In (note_filament_present false) (calls o) /\
  fifo (self_after o) = [].
Proof.
  intros Hout o. subst o.
  apply filament_present_false in Hout.
  destruct (after_append_run epos s) as (c & Hrun & Hc & Hs1).
  rewrite <- (after_append_present epos s) in Hout.
  rewrite (timer_callback_absent _ _ _ _ _ Hrun Hout).
  cbn [res calls self_after]. repeat split.
  - rewrite Hs1. reflexivity.
  - rewrite scripts_app, Hc. reflexivity.
  - apply in_or_app. right. left. reflexivity.
Qed.

Lemma absent_tick_resets_witness :
  let o := timer_callback 12 25 absent_tick_state in
  res o = Ok (At (12 + 1)) /\
  scripts (calls o) = [M221 100] /\
  In (note_filament_present false) (calls o) /\
  fifo (self_after o) = [].
Proof.
  apply (absent_tick_resets absent_tick_state 12 25).
  intros [H _]. apply le_spec in H. discriminate H.
Defined.

(** ** C10: the FIFO head is there when a tick reads it *)

(** C10.  Lines 80-84 of a tick leave the FIFO non-empty (they append
    whenever it is empty), so neither [self.fifo[0]] nor [self.fifo.pop(0)]
    raises [IndexError]: the head access of lines 89-92 returns, and no tick
    ends in [IndexError]. *)
Theorem fifo_head_present (s : FilaSense) (eventtime epos : Q) :
  fifo (after_append epos s) <> [] /\
  (exists head, res (fifo_head (after_append epos s)) = Ok head) /\
  selected_diameter epos s <> Raise IndexError /\
  res (timer_callback eventtime epos s) <> Raise IndexError.
Proof.
  pose proof (after_append_nonempty epos s) as Hne.
  destruct (after_append_run epos s) as (c & Hrun & _ & _).
  destruct (fifo (after_append epos s)) as [|head rest] eqn:Hfifo;
    [contradiction|].
  split; [discriminate|]. split; [|split].
  - exists head. unfold fifo_head. rewrite bind_get, Hfifo. reflexivity.
  - unfold selected_diameter. rewrite select_diameter_run, Hfifo.
    destruct (Py.ge epos (fst head)); discriminate.
  - destruct (filament_present (after_append epos s)) eqn:Hp.
    + rewrite (timer_callback_present _ _ _ _ _ _ _ Hrun Hp Hfifo).
      cbv zeta. destruct (Py.is_zero _); discriminate.
    + rewrite (timer_callback_absent _ _ _ _ _ Hrun Hp). discriminate.
Qed.

(** ** C9: disabling twice *)

Lemma cmd_DISABLE_run s :
  cmd_DISABLE_FILAMENT_DIAMETER_SENSOR s =
  if enabled s then
    mkOutcome (Ok tt) (set_fifo [] (set_timer NEVER (set_enabled false s)))
      [run_script_from_command (M221 100);
       respond_info (InfoText "Filament diameter sensor turned OFF")]
  else
    mkOutcome (Ok tt) s
      [respond_info (InfoText "Filament diameter sensor is already OFF")].
Proof.
  unfold cmd_DISABLE_FILAMENT_DIAMETER_SENSOR, update_timer.
  method_steps.
  destruct (enabled s); cbn [negb]; method_run; reflexivity.
Qed.

(** C9.  On a sensor that is disabled, the disable command only answers
    "Filament diameter sensor is already OFF": the object ([enabled], the
    FIFO, the timer and all the rest) is unchanged and no G-code script is
    run.  After any disable command the sensor is disabled, so a second
    disable command in a row does exactly that. *)
Theorem disable_idempotent (s : FilaSense) :
  let already_off :=
    respond_info (InfoText "Filament diameter sensor is already OFF") in
  (enabled s = false ->
   cmd_DISABLE_FILAMENT_DIAMETER_SENSOR s = mkOutcome (Ok tt) s [already_off])
  /\
  (let s1 := self_after (cmd_DISABLE_FILAMENT_DIAMETER_SENSOR s) in
   enabled s1 = false /\
   cmd_DISABLE_FILAMENT_DIAMETER_SENSOR s1 =
   mkOutcome (Ok tt) s1 [already_off] /\
   scripts (calls (cmd_DISABLE_FILAMENT_DIAMETER_SENSOR s1)) = []).
Proof.
  cbv zeta. split.
  - intros Hoff. rewrite cmd_DISABLE_run, Hoff. reflexivity.
  - assert (Hoff :
      enabled (self_after (cmd_DISABLE_FILAMENT_DIAMETER_SENSOR s)) = false).
    { rewrite cmd_DISABLE_run. destruct (enabled s) eqn:E; [reflexivity|].
      exact E. }
    split; [exact Hoff|].
    rewrite (cmd_DISABLE_run (self_after _)), Hoff. split; reflexivity.
Qed.

Lemma disable_idempotent_witness :
  cmd_DISABLE_FILAMENT_DIAMETER_SENSOR
    (set_enabled false absent_tick_state) =
  mkOutcome (Ok tt) (set_enabled false absent_tick_state)
    [respond_info (InfoText "Filament diameter sensor is already OFF")].
Proof.
  apply (proj1 (disable_idempotent (set_enabled false absent_tick_state))).
  reflexivity.
Defined.

(** ** C4: a measurement comes back out of the FIFO *)



(** ** The settings are fixed once [__init__] returns *)

Lemma keeps_ret {A : Type} (a : A) : keeps_settings (ret a).
Proof. intros s. reflexivity. Qed.

Lemma keeps_raise {A : Type} e : keeps_settings (@raise A e).
Proof. intros s. reflexivity. Qed.

Lemma keeps_get {A : Type} (field : FilaSense -> A) :
  keeps_settings (get field).
Proof. intros s. reflexivity. Qed.

Lemma keeps_emit c : keeps_settings (emit c).
Proof. intros s. reflexivity. Qed.

Lemma keeps_put update :
  (forall s, settings (update s) = settings s) -> keeps_settings (put update).
Proof. intros H s. apply H. Qed.

Lemma keeps_bind {A B : Type} (m : M A) (k : A -> M B) :
  keeps_settings m -> (forall a, keeps_settings (k a)) ->
  keeps_settings (bind m k).
Proof.
  intros Hm Hk s. unfold bind.
  destruct (m s) as [[a|e] s1 c1] eqn:E; cbn [res self_after calls].
  - rewrite Hk. specialize (Hm s). rewrite E in Hm. exact Hm.
  - specialize (Hm s). rewrite E in Hm. exact Hm.
Qed.

Lemma keeps_if {A : Type} (b : bool) (m1 m2 : M A) :
  keeps_settings m1 -> keeps_settings m2 ->
  keeps_settings (if b then m1 else m2).
Proof. destruct b; auto. Qed.

Ltac keeps :=
  repeat first
    [ apply keeps_bind; [|intros ?]
    | apply keeps_if
    | apply keeps_get
    | apply keeps_emit
    | apply keeps_ret
    | apply keeps_raise
    | apply keeps_put; intros ?; reflexivity
    | match goal with
      | |- keeps_settings (match ?x with _ => _ end) => destruct x
      end ].

Lemma keeps_append_measurement p : keeps_settings (append_measurement p).
Proof. unfold append_measurement. keeps. Qed.

Lemma keeps_select_diameter epos : keeps_settings (select_diameter epos).
Proof. unfold select_diameter, fifo_head, fifo_pop0. keeps. Qed.

Lemma keeps_timer_callback eventtime epos :
  keeps_settings (timer_callback eventtime epos).
Proof.
  unfold timer_callback, bound_diameter, update_multiplier, truediv.
  keeps; auto using keeps_append_measurement, keeps_select_diameter.
Qed.

Lemma keeps_adc_callback read_time read_value :
  keeps_settings (adc_callback read_time read_value).
Proof. unfold adc_callback, truediv. keeps. Qed.

Lemma keeps_run_command c : keeps_settings (run_command c).
Proof.
  destruct c; cbn [run_command];
    unfold cmd_QUERY_FILAMENT_DIAMETER, cmd_RESET_FILAMENT_DIAMETER_SENSOR,
      cmd_ENABLE_FILAMENT_DIAMETER_SENSOR,
      cmd_DISABLE_FILAMENT_DIAMETER_SENSOR, cmd_QUERY_RAW_FILAMENT_DIAMETER,
      cmd_ENABLE_FILAMENT_DIAMETER_LOG, cmd_DISABLE_FILAMENT_DIAMETER_LOG,
      update_timer;
    keeps.
Qed.

Lemma keeps_handle e : keeps_settings (handle e).
Proof.
  destruct e; cbn [handle].
  - unfold handle_ready, update_timer. keeps.
  - apply keeps_adc_callback.
  - unfold reactor_dispatch, update_timer.
    keeps; apply keeps_timer_callback.
  - apply keeps_run_command.
Qed.

Lemma result_bind_ok {A B : Type} (r : result A) (f : A -> result B) b :
  result_bind r f = Ok b -> exists a, r = Ok a /\ f a = Ok b.
Proof.
  destruct r as [a|e]; cbn; [|discriminate]. intros H. exists a. auto.
Qed.

Lemma getfloat_above name value default bound x :
  getfloat name value default (Some bound) = Ok x ->
  value = Some x /\ bound < x \/ value = None /\ default = Some x.
Proof.
  unfold getfloat, config_get. destruct value as [v|].
  - destruct (Py.le v bound) eqn:E; [discriminate|].
    intros H. injection H as <-. left. split; [reflexivity|].
    apply le_false. exact E.
  - destruct default; [|discriminate]. intros H. injection H as <-. auto.
Qed.

Ltac init_steps H :=
  repeat
    (let a := fresh "v" in
     let E := fresh "E" in
     apply result_bind_ok in H; destruct H as (a & E & H)).

(** The object [__init__] returns. *)
Lemma init_state config s :
  load_config config = Ok s ->
  valid_settings s /\
  enabled s = match cfg_enabled config with Some b => b | None => false end /\
  fifo s = [] /\ raw s = 0%Z /\ diameter s = 0 /\ timer s = NEVER.
Proof.
  unfold load_config, __init__. intros H. init_steps H.
  injection H as <-. cbn.
  apply getfloat_above in E5, E6.
  destruct E5 as [[_ Hnom]|[_ Hnone]]; [|discriminate].
  destruct E6 as [[_ Hdelay]|[_ Hnone]]; [|discriminate].
  unfold valid_settings. cbn. repeat split.
  - apply Qle_lt_trans with (2 := Hnom). discriminate.
  - apply Qle_lt_trans with (2 := Hdelay). discriminate.
  - unfold getboolean, config_get in E8.
    destruct (cfg_enabled config); congruence.
Qed.

Lemma reachable_valid s : reachable s -> valid_settings s.
Proof.
  induction 1 as [config s Hinit|s e _ IH].
  - apply init_state in Hinit. tauto.
  - pose proof (keeps_handle e s) as Hkeep.
    unfold valid_settings in *.
    injection Hkeep as _ _ _ _ _ Hdelay Hnom Hdiff Hmax Hmin _ _ _.
    rewrite Hdelay, Hnom, Hdiff, Hmax, Hmin. exact IH.
Qed.

Lemma reachable_run_events es s : reachable s -> reachable (run_events es s).
Proof.
  revert s. induction es as [|e es IH]; intros s H; [exact H|].
  cbn [run_events]. apply IH. constructor. exact H.
Qed.

(** ** A tick with filament *)

(** A tick with filament present resolves a diameter, bounds it and either
    runs [M221] with the multiplier of line 103 or raises on a zero
    diameter. *)
Lemma present_tick_run eventtime epos s :
  filament_present s = true ->
  exists sel c s2,
    selected_diameter epos s = Ok sel /\
    diameter_to_use epos s = Ok (bounded s sel) /\
    scripts c = [] /\
    timer_callback eventtime epos s =
    if Py.is_zero (bounded s sel) then
      mkOutcome (Raise ZeroDivisionError) s2 c
    else
      mkOutcome (Ok (next_waketime eventtime s)) s2
        (c ++ [run_script
                 (M221 (Py.round
                          ((nominal_diameter s / bounded s sel) ^ 2 * 100)))]).
Proof.
  intros Hpresent.
  destruct (after_append_run epos s) as (c & Hrun & Hc & Hs1).
  pose proof (after_append_nonempty epos s) as Hne.
  destruct (fifo (after_append epos s)) as [|head rest] eqn:Hfifo;
    [contradiction|].
  rewrite <- (after_append_present epos s) in Hpresent.
  pose proof (timer_callback_present eventtime epos s _ _ _ _
                Hrun Hpresent Hfifo) as Htick.
  cbv zeta in Htick.
  set (s1 := after_append epos s) in *.
  set (sel := if Py.ge epos (fst head) then snd head
              else if use_current_diameter_while_delay s1 then diameter s1
                   else nominal_diameter s1) in *.
  assert (Hb : bounded s1 sel = bounded s sel).
  { unfold bounded. rewrite Hs1. reflexivity. }
  assert (Hn : nominal_diameter s1 = nominal_diameter s).
  { rewrite Hs1. reflexivity. }
  assert (Hw : next_waketime eventtime s1 = next_waketime eventtime s).
  { unfold next_waketime. rewrite Hs1. reflexivity. }
  rewrite Hb, Hn, Hw in Htick.
  assert (Hsel : select_diameter epos s1 =
                 mkOutcome (Ok sel)
                   (if Py.ge epos (fst head) then set_fifo rest s1 else s1)
                   []).
  { rewrite select_diameter_run, Hfifo. subst sel.
    destruct (Py.ge epos (fst head)); reflexivity. }
  exists sel, (c ++ [note_filament_present true]),
    (if Py.ge epos (fst head) then set_fifo rest s1 else s1).
  split; [|split; [|split]].
  - unfold selected_diameter. fold s1. rewrite Hsel. reflexivity.
  - unfold diameter_to_use. fold s1.
    rewrite (bind_returns _ _ _ _ _ _ Hsel), bound_diameter_run.
    cbn [res]. fold (bounded (if Py.ge epos (fst head)
                              then set_fifo rest s1 else s1) sel).
    rewrite <- Hb. destruct (Py.ge epos (fst head)); reflexivity.
  - rewrite scripts_app, Hc. reflexivity.
  - rewrite Htick. destruct (Py.is_zero (bounded s sel)); [reflexivity|].
    rewrite <- app_assoc. reflexivity.
Qed.

Lemma round_100 : Py.round 100 = 100%Z.
Proof. reflexivity. Qed.

(** The multiplier for the nominal diameter is 100. *)
Lemma nominal_multiplier x :
  ~ x == 0 -> Py.round ((x / x) ^ 2 * 100) = 100%Z.
Proof.
  intros Hx. transitivity (Py.round 100); [|exact round_100].
  apply round_Qeq.
  change ((x / x) ^ 2) with ((x / x) * (x / x)). field. exact Hx.
Qed.

(** ** C1: an implausible diameter is replaced by the nominal one *)

(** C1.  On a tick of a loaded sensor with filament present, if the diameter
    resolved by lines 89-98, whether popped from the FIFO head, the current
    reading or the nominal diameter, lies outside
    [[min_diameter, max_diameter]], then [diameter_to_use] becomes
    [nominal_diameter], the tick returns and the one script it runs is
    [M221 S100]. *)
Theorem implausible_diameter_replaced
    (s : FilaSense) (eventtime epos d : Q) :
  reachable s ->
  runout_min_diameter s <= diameter s <= runout_max_diameter s ->
  selected_diameter epos s = Ok d ->
  ~ min_diameter s <= d <= max_diameter s ->
  diameter_to_use epos s = Ok (nominal_diameter s) /\
  res (timer_callback eventtime epos s) = Ok (next_waketime eventtime s) /\
  scripts (calls (timer_callback eventtime epos s)) = [M221 100].
Proof.
  intros Hreach Hpresent Hsel Hout.
  apply filament_present_spec in Hpresent.
  destruct (present_tick_run eventtime epos s Hpresent)
    as (sel & c & s2 & Hsel' & Huse & Hc & Htick).
  rewrite Hsel in Hsel'. injection Hsel' as <-.
  assert (Hb : bounded s d = nominal_diameter s).
  { unfold bounded.
    destruct (Py.between (min_diameter s) d (max_diameter s)) eqn:E;
      [|reflexivity].
    apply between_spec in E. contradiction. }
  rewrite Hb in Huse, Htick.
  destruct (reachable_valid s Hreach) as (Hnom & _).
  assert (Hnz : ~ nominal_diameter s == 0).
  { intros H0. rewrite H0 in Hnom. discriminate Hnom. }
  apply is_zero_false in Hnz as Hz. rewrite Hz in Htick.
  split; [exact Huse|]. rewrite Htick. cbn [res calls]. split; [reflexivity|].
  rewrite scripts_app, Hc, (nominal_multiplier _ Hnz). reflexivity.
Qed.

Lemma minimal_sensor_loaded : load_config minimal_config = Ok minimal_sensor.
Proof. reflexivity. Qed.

Lemma wide_sensor_loaded : load_config wide_config = Ok wide_sensor.
Proof. reflexivity. Qed.

Lemma implausible_diameter_replaced_witness :
  diameter_to_use 70 thin_filament_sensor =
  Ok (nominal_diameter thin_filament_sensor) /\
  res (timer_callback 1 70 thin_filament_sensor) =
  Ok (next_waketime 1 thin_filament_sensor) /\
  scripts (calls (timer_callback 1 70 thin_filament_sensor)) = [M221 100].
Proof.
  eapply (implausible_diameter_replaced thin_filament_sensor 1 70).
  - apply reachable_run_events.
    exact (reachable_init _ _ minimal_sensor_loaded).
  - split; apply le_spec; vm_compute; reflexivity.
  - vm_compute. reflexivity.
  - intros [H _]. apply le_spec in H. vm_compute in H. discriminate H.
Defined.

(** ** C6: the extrusion multiplier *)

(** C6.  On a tick with filament present, where [d] is [diameter_to_use] as
    line 103 reads it, the tick returns and the one script it runs is
    [M221 S<round((nominal_diameter / d) ** 2 * 100)>]; only for [d] equal to
    0 the division raises [ZeroDivisionError] and no script is run.  With a
    nominal diameter of 1.75 the multiplier is 136 for a queued diameter of
    1.50 and 100 for one of 1.75. *)
Theorem multiplier_formula (s : FilaSense) (eventtime epos d : Q) :
  runout_min_diameter s <= diameter s <= runout_max_diameter s ->
  diameter_to_use epos s = Ok d ->
  let o := timer_callback eventtime epos s in
  (if Py.is_zero d then
     res o = Raise ZeroDivisionError /\ scripts (calls o) = []
   else
     res o = Ok (next_waketime eventtime s) /\
     scripts (calls o) =
     [M221 (Py.round ((nominal_diameter s / d) ^ 2 * 100))]) /\
  Py.round ((1.75 / 1.50) ^ 2 * 100) = 136%Z /\
  Py.round ((1.75 / 1.75) ^ 2 * 100) = 100%Z.
Proof.
  intros Hpresent Huse o. subst o.
  apply filament_present_spec in Hpresent.
  destruct (present_tick_run eventtime epos s Hpresent)
    as (sel & c & s2 & _ & Huse' & Hc & Htick).
  rewrite Huse in Huse'. injection Huse' as Hd. rewrite <- Hd in Htick.
  split; [|split; reflexivity].
  rewrite Htick. destruct (Py.is_zero d); cbn [res calls].
  - auto.
  - rewrite scripts_app, Hc. auto.
Qed.

Lemma multiplier_formula_witness :
  (res (timer_callback 1 70 (queued_reading 0.625)) = Ok (At (1 + 1)) /\
   scripts (calls (timer_callback 1 70 (queued_reading 0.625))) =
   [M221 136]) /\
  (res (timer_callback 1 70 (queued_reading 0.75)) = Ok (At (1 + 1)) /\
   scripts (calls (timer_callback 1 70 (queued_reading 0.75))) =
   [M221 100]).
Proof.
  split.
  - refine (proj1 (multiplier_formula (queued_reading 0.625) 1 70 1.50 _ _)).
    + split; apply le_spec; vm_compute; reflexivity.
    + vm_compute. reflexivity.
  - refine (proj1 (multiplier_formula (queued_reading 0.75) 1 70 1.75 _ _)).
    + split; apply le_spec; vm_compute; reflexivity.
    + vm_compute. reflexivity.
Defined.

(** ** C2: the FIFO is rate limited *)

Lemma float_fifo_last_some l tail :
  Binary64.fifo_last l = Some tail -> exists l0, l = l0 ++ [tail].
Proof.
  induction l as [|a l IH]; [discriminate|].
  cbn [Binary64.fifo_last]. destruct l as [|b l].
  - intros H. injection H as <-. exists []. reflexivity.
  - intros H. destruct (IH H) as (l0 & ->). exists (a :: l0). reflexivity.
Qed.

Lemma float_fifo_last_none l : Binary64.fifo_last l = None -> l = [].
Proof.
  destruct l as [|x l]; [reflexivity|]. intros H. exfalso.
  revert x H. induction l as [|y l IH]; intros x H; [discriminate|].
  cbn [Binary64.fifo_last] in H. apply (IH y). exact H.
Qed.

Lemma spaced_by_app i l tail a :
  Binary64.spaced_by i (l ++ [tail]) ->
  (fst tail + i <=? fst a)%float = true ->
  Binary64.spaced_by i ((l ++ [tail]) ++ [a]).
Proof.
  induction l as [|x l IH]; intros Hsp Hdue; cbn [app] in *.
  - cbn. auto.
  - destruct (l ++ [tail]) as [|y l'] eqn:E; [destruct l; discriminate|].
    cbn [app]. cbn [Binary64.spaced_by] in Hsp |- *.
    destruct Hsp as (Hxy & Hsp).
    split; [exact Hxy|]. apply IH; assumption.
Qed.

(** Lines 80-82 return once the interval converts; they append exactly when
    the FIFO is empty or the position has reached the rounded sum. *)
Lemma float_append_cases interval i l a :
  Binary64.float_of_int interval = Binary64.Returns i ->
  exists l',
    Binary64.append_measurement interval l a = Binary64.Returns l' /\
    (l' = l ++ [a] /\
     (l = [] \/
      exists tail,
        Binary64.fifo_last l = Some tail /\
        (fst tail + i <=? fst a)%float = true) \/
     l' = l /\
     exists tail,
       Binary64.fifo_last l = Some tail /\
       (fst tail + i <=? fst a)%float = false).
Proof.
  intros Hi. unfold Binary64.append_measurement, Binary64.measurement_due.
  destruct (Binary64.fifo_last l) as [tail|] eqn:Htail.
  - rewrite Hi. cbn [Binary64.and_then].
    destruct (fst tail + i <=? fst a)%float eqn:Hdue.
    + eexists. split; [reflexivity|]. left. split; [reflexivity|].
      right. eauto.
    + eexists. split; [reflexivity|]. right. split; [reflexivity|]. eauto.
  - cbn [Binary64.and_then]. eexists. split; [reflexivity|]. left.
    split; [reflexivity|]. left. apply float_fifo_last_none. exact Htail.
Qed.

Lemma float_append_spaced interval i l a l' :
  Binary64.float_of_int interval = Binary64.Returns i ->
  Binary64.spaced_by i l ->
  Binary64.append_measurement interval l a = Binary64.Returns l' ->
  Binary64.spaced_by i l'.
Proof.
  intros Hi Hsp Happ.
  destruct (float_append_cases interval i l a Hi) as (l1 & H1 & Hcases).
  rewrite H1 in Happ. injection Happ as <-.
  destruct Hcases as [(-> & [->|(tail & Htail & Hdue)])|(-> & _)].
  - exact I.
  - destruct (float_fifo_last_some _ _ Htail) as (l0 & ->).
    apply spaced_by_app; assumption.
  - exact Hsp.
Qed.

Lemma float_attempts_run interval i attempts l :
  Binary64.float_of_int interval = Binary64.Returns i ->
  Binary64.spaced_by i l ->
  exists q,
    Binary64.enqueue_attempts interval attempts l = Binary64.Returns q /\
    Binary64.spaced_by i q.
Proof.
  intros Hi. revert l. induction attempts as [|a rest IH]; intros l Hsp.
  - exists l. auto.
  - cbn [Binary64.enqueue_attempts].
    destruct (float_append_cases interval i l a Hi) as (l1 & H1 & _).
    rewrite H1. cbn [Binary64.and_then]. apply IH.
    apply (float_append_spaced interval i l a l1 Hi Hsp H1).
Qed.

Lemma float_attempts_app interval done rest l q :
  Binary64.enqueue_attempts interval done l = Binary64.Returns q ->
  Binary64.enqueue_attempts interval (done ++ rest) l =
  Binary64.enqueue_attempts interval rest q.
Proof.
  revert l. induction done as [|a done IH]; intros l H; cbn [app].
  - cbn in H. injection H as <-. reflexivity.
  - cbn [Binary64.enqueue_attempts] in *.
    destruct (Binary64.append_measurement interval l a) as [l1|e];
      cbn [Binary64.and_then] in *; [|discriminate].
    apply IH. exact H.
Qed.

(** C2, as the code has it.  Start from an empty FIFO and let lines 80-82
    run for any sequence of [(epos_projected, diameter)] attempts, with
    [measurement_interval] an int that converts to the float [i].  Every
    attempt returns.  After each attempt the position of every FIFO entry is
    at least the binary64 sum of the position before it and [i]; and each
    attempt either appends its entry, the FIFO being empty or the position
    being at least that sum for the tail, or leaves the FIFO alone, the
    position being below that sum.  The bound is the rounded sum line 81
    computes, not the exact one. *)
Theorem float_fifo_rate_limited
    (interval : Z) (i : float) (attempts : list Binary64.entry) :
  Binary64.float_of_int interval = Binary64.Returns i ->
  (forall done rest,
     attempts = done ++ rest ->
     exists q,
       Binary64.enqueue_attempts interval done [] = Binary64.Returns q /\
       Binary64.spaced_by i q) /\
  (forall done a rest,
     attempts = done ++ a :: rest ->
     exists q q',
       Binary64.enqueue_attempts interval done [] = Binary64.Returns q /\
       Binary64.enqueue_attempts interval (done ++ [a]) [] =
       Binary64.Returns q' /\
       (q' = q ++ [a] /\
        (q = [] \/
         exists tail,
           Binary64.fifo_last q = Some tail /\
           (fst tail + i <=? fst a)%float = true) \/
        q' = q /\
        exists tail,
          Binary64.fifo_last q = Some tail /\
          (fst tail + i <=? fst a)%float = false)).
Proof.
  intros Hi. split.
  - intros done rest _. apply float_attempts_run; [exact Hi|exact I].
  - intros done a rest _.
    destruct (float_attempts_run interval i done [] Hi I) as (q & Hq & _).
    destruct (float_append_cases interval i q a Hi) as (q' & Hq' & Hcases).
    exists q, q'. split; [exact Hq|]. split; [|exact Hcases].
    rewrite (float_attempts_app _ _ _ _ _ Hq).
    cbn [Binary64.enqueue_attempts].
    rewrite Hq'. reflexivity.
Qed.

Lemma float_fifo_rate_limited_witness :
  exists q,
    Binary64.enqueue_attempts 10
      [(70, 1.75); (75, 1.74); (80, 1.76); (95, 1.7)]%float [] =
    Binary64.Returns q /\
    Binary64.spaced_by 10 q.
Proof.
  refine (proj1
            (float_fifo_rate_limited 10 10
               [(70, 1.75); (75, 1.74); (80, 1.76); (95, 1.7)]%float _)
            [(70, 1.75); (75, 1.74); (80, 1.76); (95, 1.7)]%float [] _).
  - vm_compute. reflexivity.
  - reflexivity.
Defined.

(** Two queued positions closer than [measurement_interval].  With the
    default interval 10 and a delay of 70, ticks at the extruder positions
    48.2 and 58.2 project [48.2 + 70] and [58.2 + 70].  The positions
    increase and both are appended from the empty FIFO, yet their difference
    is below 10, as binary64 subtraction gives it and exactly. *)
Lemma float_fifo_closer_than_interval :
  Binary64.float_of_int 10 = Binary64.Returns 10%float /\
  (Binary64.epos_projected 48.2 70 <? Binary64.epos_projected 58.2 70)%float
  = true /\
  Binary64.enqueue_attempts 10
    [(Binary64.epos_projected 48.2 70, 1.75%float);
     (Binary64.epos_projected 58.2 70, 1.75%float)] [] =
  Binary64.Returns
    [(Binary64.epos_projected 48.2 70, 1.75%float);
     (Binary64.epos_projected 58.2 70, 1.75%float)] /\
  (Binary64.epos_projected 58.2 70 - Binary64.epos_projected 48.2 70 <? 10)%float
  = true /\
  Binary64.to_Q (Binary64.epos_projected 58.2 70) -
  Binary64.to_Q (Binary64.epos_projected 48.2 70) < 10.
Proof.
  repeat split; vm_compute; reflexivity.
Qed.

(** ** C5: the estimator at the calibration points *)

Lemma is_zero_inject_Z z : Py.is_zero (inject_Z z) = (z =? 0)%Z.
Proof. reflexivity. Qed.

Lemma adc_callback_run read_time read_value s :
  let r := Py.round (read_value * 10000) in
  adc_callback read_time read_value s =
  if (raw_2 s - raw_1 s =? 0)%Z then
    mkOutcome (Raise ZeroDivisionError) (set_raw r s) []
  else
    mkOutcome (Ok tt)
      (set_diameter
         (Py.round2
            ((diameter_2 s - diameter_1 s) / inject_Z (raw_2 s - raw_1 s) *
             inject_Z (r - raw_1 s) + diameter_1 s))
         (set_raw r s)) [].
Proof.
  cbv zeta. unfold adc_callback, truediv. method_steps.
  cbn [diameter_1 diameter_2 raw_1 raw_2 raw set_raw].
  rewrite is_zero_inject_Z.
  destruct (raw_2 s - raw_1 s =? 0)%Z; method_steps; reflexivity.
Qed.







(** ** C7: when the timer runs *)

Lemma timer_callback_returns eventtime epos s w :
  res (timer_callback eventtime epos s) = Ok w ->
  w = next_waketime eventtime s.
Proof.
  destruct (filament_present s) eqn:Hp.
  - destruct (present_tick_run eventtime epos s Hp)
      as (sel & c & s2 & _ & _ & _ & ->).
    destruct (Py.is_zero _); cbn [res]; congruence.
  - destruct (after_append_run epos s) as (c & Hrun & _ & Hs1).
    rewrite <- (after_append_present epos s) in Hp.
    rewrite (timer_callback_absent _ _ _ _ _ Hrun Hp). cbn [res].
    unfold next_waketime. rewrite Hs1. cbn [enabled set_fifo]. congruence.
Qed.

(** The reactor runs the callback of a timer that is due. *)
Lemma reactor_dispatch_due eventtime epos s :
  timer_due (timer s) eventtime = true ->
  let tick := timer_callback eventtime epos s in
  let o := reactor_dispatch eventtime epos s in
  calls o = calls tick /\
  (res tick = Ok (next_waketime eventtime s) ->
   res o = Ok tt /\
   self_after o = set_timer (next_waketime eventtime s) (self_after tick)).
Proof.
  intros Hdue. cbv zeta. unfold reactor_dispatch, update_timer.
  rewrite bind_get, Hdue. unfold bind.
  destruct (timer_callback eventtime epos s) as [[w|e] s1 c1];
    cbn [res self_after calls put].
  - split; [apply app_nil_r|]. intros H. injection H as ->. auto.
  - split; [reflexivity|]. discriminate.
Qed.

(** The reactor leaves alone a timer that is not due. *)
Lemma reactor_dispatch_idle eventtime epos s :
  timer_due (timer s) eventtime = false ->
  reactor_dispatch eventtime epos s = mkOutcome (Ok tt) s [].
Proof.
  intros Hidle. unfold reactor_dispatch. rewrite bind_get, Hidle.
  reflexivity.
Qed.

Lemma adc_callback_timer read_time read_value s :
  timer (self_after (adc_callback read_time read_value s)) = timer s.
Proof.
  rewrite adc_callback_run.
  destruct (raw_2 s - raw_1 s =? 0)%Z; reflexivity.
Qed.

Lemma cmd_ENABLE_run s :
  cmd_ENABLE_FILAMENT_DIAMETER_SENSOR s =
  if enabled s then
    mkOutcome (Ok tt) s
      [respond_info (InfoText "Filament diameter sensor is already ON")]
  else
    mkOutcome (Ok tt) (set_timer NOW (set_enabled true s))
      [respond_info (InfoText "Filament diameter sensor turned ON")].
Proof.
  unfold cmd_ENABLE_FILAMENT_DIAMETER_SENSOR, update_timer.
  method_steps.
  destruct (enabled s); method_run; reflexivity.
Qed.

(** Only the ready event and an enable command on a disabled sensor wake a
    timer that is at [NEVER]. *)
Lemma timer_woken_by s e :
  timer s = NEVER ->
  timer (self_after (handle e s)) <> NEVER ->
  e = klippy_ready \/
  e = gcode ENABLE_FILAMENT_DIAMETER_SENSOR /\ enabled s = false.
Proof.
  intros Hstopped Hwoken. destruct e as [| rt rv | t epos | c].
  - left. reflexivity.
  - exfalso. apply Hwoken. cbn [handle].
    rewrite adc_callback_timer. exact Hstopped.
  - exfalso. apply Hwoken. cbn [handle].
    rewrite reactor_dispatch_idle; [exact Hstopped|].
    rewrite Hstopped. reflexivity.
  - destruct c; cbn [handle run_command] in Hwoken;
      try (exfalso; apply Hwoken; exact Hstopped).
    + rewrite cmd_ENABLE_run in Hwoken.
      destruct (enabled s) eqn:E; [|auto].
      exfalso. apply Hwoken. exact Hstopped.
    + exfalso. apply Hwoken. rewrite cmd_DISABLE_run.
      destruct (enabled s); [reflexivity|exact Hstopped].
Qed.

(** C7, as the code has it.  [__init__] leaves the timer at [NEVER] and
    [enabled] as configured (false by default).  The ready event schedules
    the timer at once whether or not the sensor is enabled.  A timer that is
    due runs one tick, and a tick that returns reschedules the timer one
    time unit later when the sensor is enabled and at [NEVER] when it is
    not.  A timer at [NEVER] is never due, and only the ready event or an
    enable command on a disabled sensor takes it away from [NEVER]. *)
Theorem timer_schedule :
  (forall config s,
     load_config config = Ok s ->
     timer s = NEVER /\
     enabled s =
     match cfg_enabled config with Some b => b | None => false end) /\
  (forall s,
     timer (self_after (handle klippy_ready s)) = NOW /\
     enabled (self_after (handle klippy_ready s)) = enabled s) /\
  (forall s eventtime epos,
     timer_due (timer s) eventtime = true ->
     let tick := timer_callback eventtime epos s in
     let o := handle (reactor_time eventtime epos) s in
     calls o = calls tick /\
     (forall w,
        res tick = Ok w ->
        w = (if enabled s then At (eventtime + 1) else NEVER) /\
        timer (self_after o) = w)) /\
  (forall s eventtime epos,
     timer s = NEVER ->
     handle (reactor_time eventtime epos) s = mkOutcome (Ok tt) s []) /\
  (forall s e,
     timer s = NEVER ->
     timer (self_after (handle e s)) <> NEVER ->
     e = klippy_ready \/
     e = gcode ENABLE_FILAMENT_DIAMETER_SENSOR /\ enabled s = false).
Proof.
  split; [|split; [|split; [|split]]].
  - intros config s Hinit. apply init_state in Hinit. tauto.
  - intros s. split; reflexivity.
  - intros s eventtime epos Hdue. cbv zeta. cbn [handle].
    destruct (reactor_dispatch_due eventtime epos s Hdue) as (Hcalls & Hret).
    split; [exact Hcalls|]. intros w Hw.
    pose proof (timer_callback_returns _ _ _ _ Hw) as ->.
    split; [reflexivity|].
    destruct (Hret Hw) as (_ & ->). reflexivity.
  - intros s eventtime epos Hstopped. cbn [handle].
    apply reactor_dispatch_idle. rewrite Hstopped. reflexivity.
  - exact timer_woken_by.
Qed.

Lemma timer_schedule_witness :
  timer minimal_sensor = NEVER /\ enabled minimal_sensor = false.
Proof.
  exact (proj1 timer_schedule minimal_config minimal_sensor
           minimal_sensor_loaded).
Defined.

(** With [enabled] left at its default, false, a tick still runs when the
    printer gets ready: the ready event sets the timer to [NOW], the reactor
    finds it due and calls [timer_callback], which reports the filament
    absent and runs [M221 S100] before it returns [NEVER]. *)
Lemma tick_at_ready_while_disabled :
  load_config minimal_config = Ok minimal_sensor /\
  cfg_enabled minimal_config = None /\
  enabled minimal_sensor = false /\
  timer (self_after (handle klippy_ready minimal_sensor)) = NOW /\
  timer_due (timer (self_after (handle klippy_ready minimal_sensor))) 0 =
  true /\
  calls
    (handle (reactor_time 0 0)
       (self_after (handle klippy_ready minimal_sensor))) =
  calls
    (timer_callback 0 0 (self_after (handle klippy_ready minimal_sensor))) /\
  calls
    (timer_callback 0 0 (self_after (handle klippy_ready minimal_sensor))) =
  [note_filament_present false; run_script (M221 100)] /\
  res (timer_callback 0 0 (self_after (handle klippy_ready minimal_sensor))) =
  Ok NEVER.
Proof. repeat split. Qed.

(** ** C8: what [__init__] does not validate *)

(** With equal raw calibration values every ADC report raises. *)
Lemma adc_callback_flat_calibration s read_time read_value :
  raw_1 s = raw_2 s ->
  res (adc_callback read_time read_value s) = Raise ZeroDivisionError /\
  diameter (self_after (adc_callback read_time read_value s)) = diameter s.
Proof.
  intros Hraw. rewrite adc_callback_run, Hraw, Z.sub_diag.
  split; reflexivity.
Qed.

(** C8, the code at the failing inputs.  [__init__] accepts a configuration
    with [raw_1 = raw_2 = 6250]; the sensor it builds raises
    [ZeroDivisionError] in every ADC callback and never updates [diameter].
    [__init__] also accepts [measurement_interval = -5]. *)
Theorem calibration_not_validated :
  load_config flat_calibration_config = Ok flat_calibration_sensor /\
  raw_1 flat_calibration_sensor = raw_2 flat_calibration_sensor /\
  (forall read_time read_value,
     res (adc_callback read_time read_value flat_calibration_sensor) =
     Raise ZeroDivisionError /\
     diameter
       (self_after
          (adc_callback read_time read_value flat_calibration_sensor)) =
     diameter flat_calibration_sensor) /\
  load_config negative_interval_config = Ok negative_interval_sensor /\
  measurement_interval negative_interval_sensor = (-5)%Z.
Proof.
  split; [reflexivity|]. split; [reflexivity|].
  split; [|split; reflexivity].
  intros read_time read_value.
  apply adc_callback_flat_calibration. reflexivity.
Qed.

(** ** The head of the FIFO across ticks *)

(** Lines 80-84 append at the tail only, so the head a tick finds is the head
    the tick reads. *)
Lemma after_append_head epos s head rest :
  fifo s = head :: rest ->
  exists rest', fifo (after_append epos s) = head :: rest'.
Proof.
  intros Hfifo. destruct (after_append_run epos s) as (_ & _ & _ & ->).
  cbn [fifo set_fifo]. rewrite Hfifo.
  destruct (measurement_due _ _ _); cbn [app]; eauto.
Qed.

(** Once the extruder has reached the position of the measurement at the
    head, a tick resolves the diameter of that measurement, whatever the
    sensor reads by then. *)
Lemma head_reached_selected epos s p d rest :
  fifo s = (p, d) :: rest ->
  p <= epos ->
  selected_diameter epos s = Ok d.
Proof.
  intros Hfifo Hreached.
  destruct (after_append_head epos s _ _ Hfifo) as (rest' & Hhead).
  unfold selected_diameter. rewrite select_diameter_run, Hhead.
  cbn [fst snd]. apply ge_spec in Hreached. rewrite Hreached. reflexivity.
Qed.

(** A tick on an empty FIFO with filament present queues the current reading
    for the position [measurement_delay] ahead and does not pop it yet. *)
Lemma first_tick_queues eventtime epos s :
  reachable s ->
  fifo s = [] ->
  filament_present s = true ->
  fifo (self_after (timer_callback eventtime epos s)) =
  [(epos + measurement_delay s, diameter s)].
Proof.
  intros Hreach Hempty Hpresent.
  destruct (reachable_valid s Hreach) as (_ & Hdelay & _).
  destruct (after_append_run epos s) as (c & Hrun & _ & Hs1).
  rewrite Hempty in Hs1. cbn [measurement_due fifo_last app] in Hs1.
  assert (Hfifo : fifo (after_append epos s) =
                  [(epos + measurement_delay s, diameter s)]).
  { rewrite Hs1. reflexivity. }
  rewrite <- (after_append_present epos s) in Hpresent.
  rewrite (timer_callback_present _ _ _ _ _ _ _ Hrun Hpresent Hfifo).
  cbv zeta. cbn [fst snd].
  assert (Hnot : Py.ge epos (epos + measurement_delay s) = false).
  { apply le_false. rewrite <- (Qplus_0_r epos) at 1.
    apply Qplus_lt_r. exact Hdelay. }
  rewrite Hnot.
  destruct (Py.is_zero _); cbn [self_after]; exact Hfifo.
Qed.

(** * Further properties *)

(** ** Rounding *)

(** Rounding keeps the order of two fractions. *)
Lemma round_fraction_le n d m e :
  (n * Zpos e <= m * Zpos d)%Z ->
  (Py.round_fraction n d <= Py.round_fraction m e)%Z.
Proof.
  intros Hle. unfold Py.round_fraction.
  pose proof (Z.div_mod n (Zpos d) ltac:(lia)) as Hn.
  pose proof (Z.mod_pos_bound n (Zpos d) ltac:(lia)) as Hr.
  pose proof (Z.div_mod m (Zpos e) ltac:(lia)) as Hm.
  pose proof (Z.mod_pos_bound m (Zpos e) ltac:(lia)) as Ht.
  set (f := (n / Zpos d)%Z) in *. set (r := (n mod Zpos d)%Z) in *.
  set (g := (m / Zpos e)%Z) in *. set (t := (m mod Zpos e)%Z) in *.
  assert (Hfg : (f <= g)%Z).
  { destruct (Z_le_gt_dec f g) as [H|H]; [exact H|exfalso].
    assert (H1 : (Zpos d * Zpos e * (g + 1) <= Zpos d * Zpos e * f)%Z).
    { apply Z.mul_le_mono_nonneg_l; lia. }
    assert (H2 : (t * Zpos d < Zpos e * Zpos d)%Z).
    { apply Z.mul_lt_mono_pos_r; lia. }
    assert (H3 : (0 <= r * Zpos e)%Z) by (apply Z.mul_nonneg_nonneg; lia).
    rewrite Hn, Hm in Hle. lia. }
  destruct (Z.eq_dec f g) as [->|Hne].
  - assert (Hrt : (r * Zpos e <= t * Zpos d)%Z).
    { rewrite Hn, Hm in Hle. lia. }
    destruct (Z.compare_spec (2 * r) (Zpos d)) as [E|E|E];
    destruct (Z.compare_spec (2 * t) (Zpos e)) as [E'|E'|E'];
    destruct (Z.even g); try lia; nia.
  - destruct (Z.compare_spec (2 * r) (Zpos d)) as [E|E|E];
    destruct (Z.compare_spec (2 * t) (Zpos e)) as [E'|E'|E'];
    destruct (Z.even f); destruct (Z.even g); lia.
Qed.

Lemma round_le x y : x <= y -> (Py.round x <= Py.round y)%Z.
Proof.
  intros H. apply Qred_le in H. unfold Py.round.
  apply round_fraction_le. exact H.
Qed.

Lemma round2_le x y : x <= y -> Py.round2 x <= Py.round2 y.
Proof.
  intros H. unfold Py.round2.
  apply Qmult_le_compat_r; [|discriminate].
  rewrite <- Zle_Qle. apply round_le.
  apply Qmult_le_compat_r; [exact H|discriminate].
Qed.

(** ** The diameter estimator *)

(** X2.  With a calibration that rises ([raw_1 < raw_2] and
    [diameter_1 <= diameter_2]), a larger sample never gives a smaller
    [raw] nor a smaller [diameter]. *)
Theorem estimator_monotone (s : FilaSense) (t1 t2 v1 v2 : Q) :
  (raw_1 s < raw_2 s)%Z ->
  diameter_1 s <= diameter_2 s ->
  v1 <= v2 ->
  (raw (self_after (adc_callback t1 v1 s)) <=
   raw (self_after (adc_callback t2 v2 s)))%Z /\
  diameter (self_after (adc_callback t1 v1 s)) <=
  diameter (self_after (adc_callback t2 v2 s)).
Proof.
  intros Hraw Hdia Hv. rewrite !adc_callback_run.
  assert (Hnz : (raw_2 s - raw_1 s =? 0)%Z = false).
  { apply Z.eqb_neq. lia. }
  rewrite Hnz. cbn [self_after raw diameter set_raw set_diameter].
  assert (Hr : (Py.round (v1 * 10000) <= Py.round (v2 * 10000))%Z).
  { apply round_le. apply Qmult_le_compat_r; [exact Hv|discriminate]. }
  split; [exact Hr|].
  apply round2_le. apply Qplus_le_l.
  assert (Hslope : 0 <= (diameter_2 s - diameter_1 s) /
                        inject_Z (raw_2 s - raw_1 s)).
  { apply Qle_shift_div_l.
    - change 0 with (inject_Z 0). rewrite <- Zlt_Qlt. lia.
    - rewrite Qmult_0_l. unfold Qminus. rewrite <- Qle_minus_iff.
      exact Hdia. }
  rewrite !(Qmult_comm ((diameter_2 s - diameter_1 s) / _)).
  apply Qmult_le_compat_r; [|exact Hslope].
  rewrite <- Zle_Qle. lia.
Qed.

Lemma estimator_monotone_witness :
  (raw (self_after (adc_callback 0 0.7 minimal_sensor)) <=
   raw (self_after (adc_callback 1 0.8 minimal_sensor)))%Z /\
  diameter (self_after (adc_callback 0 0.7 minimal_sensor)) <=
  diameter (self_after (adc_callback 1 0.8 minimal_sensor)).
Proof.
  apply (estimator_monotone minimal_sensor 0 1 0.7 0.8).
  - reflexivity.
  - discriminate.
  - discriminate.
Defined.

(** X3.  The ADC callback, whether it returns or raises, assigns [raw] and
    [diameter] only: the settings, the FIFO, [enabled], [logging] and the
    timer stay, and no collaborator is called.  It does so on a disabled
    sensor as on an enabled one. *)
Theorem adc_callback_frame (s : FilaSense) (read_time read_value : Q) :
  let o := adc_callback read_time read_value s in
  self_after o =
  set_diameter (diameter (self_after o)) (set_raw (raw (self_after o)) s) /\
  raw (self_after o) = Py.round (read_value * 10000) /\
  calls o = [].
Proof.
  cbv zeta. rewrite adc_callback_run.
  destruct (raw_2 s - raw_1 s =? 0)%Z;
    cbn [self_after calls raw diameter set_raw set_diameter];
    repeat split; reflexivity.
Qed.

(** ** The shape of a tick *)

Lemma presence_notes_app c1 c2 :
  presence_notes (c1 ++ c2) = presence_notes c1 ++ presence_notes c2.
Proof.
  induction c1 as [|c c1 IH]; [reflexivity|].
  destruct c; cbn; rewrite IH; reflexivity.
Qed.

(** Lines 80-84 in full: the state, and calls that are log lines only. *)
Lemma append_step_run epos s :
  exists c,
    append_measurement (epos + measurement_delay s) s =
    mkOutcome (Ok tt)
      (set_fifo
         (if measurement_due (fifo s) (measurement_interval s)
               (epos + measurement_delay s)
          then fifo s ++ [(epos + measurement_delay s, diameter s)]
          else fifo s) s) c /\
    scripts c = [] /\ presence_notes c = [] /\
    (c = [] \/ c = [respond_info (InfoDiameter (diameter s))]).
Proof.
  rewrite append_measurement_run.
  destruct (measurement_due _ _ _).
  - eexists. split; [reflexivity|].
    destruct (logging s); repeat split; auto.
  - exists []. split; [destruct s; reflexivity|]. repeat split. auto.
Qed.

(** Every tick, case by case: what it returns, the only attribute it
    assigns (the FIFO) and the calls it makes. *)
Lemma timer_callback_cases eventtime epos s :
  exists head rest c,
    fifo (after_append epos s) = head :: rest /\
    scripts c = [] /\ presence_notes c = [] /\
    (filament_present s = false /\
     timer_callback eventtime epos s =
     mkOutcome (Ok (next_waketime eventtime s)) (set_fifo [] s)
       (c ++ [note_filament_present false; run_script (M221 100)])
     \/
     filament_present s = true /\
     timer_callback eventtime epos s =
     let popped := Py.ge epos (fst head) in
     let d :=
       bounded s
         (if popped then snd head
          else if use_current_diameter_while_delay s then diameter s
               else nominal_diameter s) in
     let q := if popped then rest else head :: rest in
     if Py.is_zero d then
       mkOutcome (Raise ZeroDivisionError) (set_fifo q s)
         (c ++ [note_filament_present true])
     else
       mkOutcome (Ok (next_waketime eventtime s)) (set_fifo q s)
         (c ++ [note_filament_present true;
                run_script
                  (M221 (Py.round ((nominal_diameter s / d) ^ 2 * 100)))])).
Proof.
  destruct (append_step_run epos s) as (c & Hrun & Hc & Hn & _).
  pose proof (after_append_nonempty epos s) as Hne.
  assert (Hs1 : after_append epos s =
                set_fifo (fifo (after_append epos s)) s).
  { unfold after_append. rewrite Hrun. reflexivity. }
  assert (Hrun' : append_measurement (epos + measurement_delay s) s =
                  mkOutcome (Ok tt) (after_append epos s) c).
  { unfold after_append. rewrite Hrun. reflexivity. }
  destruct (fifo (after_append epos s)) as [|head rest] eqn:Hfifo;
    [contradiction|].
  exists head, rest, c. split; [reflexivity|]. split; [exact Hc|].
  split; [exact Hn|].
  destruct (filament_present s) eqn:Hp.
  - right. split; [reflexivity|].
    rewrite <- (after_append_present epos s) in Hp.
    rewrite (timer_callback_present _ _ _ _ _ _ _ Hrun' Hp Hfifo).
    cbv zeta. rewrite Hs1.
    unfold bounded, next_waketime.
    cbn [min_diameter max_diameter nominal_diameter diameter enabled
         use_current_diameter_while_delay set_fifo].
    destruct (Py.ge epos (fst head)); reflexivity.
  - left. split; [reflexivity|].
    rewrite <- (after_append_present epos s) in Hp.
    rewrite (timer_callback_absent _ _ _ _ _ Hrun' Hp).
    rewrite Hs1. reflexivity.
Qed.

(** X4.  Every tick reports the runout judgement of line 86 to the runout
    helper exactly once and assigns no attribute but the FIFO.  A tick that
    returns has run exactly one script, an [M221], and returns
    [eventtime + 1] when enabled and [NEVER] when not; a tick that raises
    raises [ZeroDivisionError], with filament present, and has run no
    script. *)
Theorem tick_calls (s : FilaSense) (eventtime epos : Q) :
  let o := timer_callback eventtime epos s in
  presence_notes (calls o) = [filament_present s] /\
  self_after o = set_fifo (fifo (self_after o)) s /\
  (forall w,
     res o = Ok w ->
     w = next_waketime eventtime s /\
     exists percent, scripts (calls o) = [M221 percent]) /\
  (forall e,
     res o = Raise e ->
     e = ZeroDivisionError /\ filament_present s = true /\
     scripts (calls o) = []).
Proof.
  cbv zeta.
  destruct (timer_callback_cases eventtime epos s)
    as (head & rest & c & _ & Hc & Hn & [(Hp & ->)|(Hp & ->)]); rewrite Hp.
  - cbn [res self_after calls fifo set_fifo].
    rewrite presence_notes_app, scripts_app, Hc, Hn.
    split; [reflexivity|]. split; [reflexivity|]. split.
    + intros w H. injection H as <-. split; [reflexivity|].
      exists 100%Z. reflexivity.
    + discriminate.
  - cbv zeta. destruct (Py.is_zero _);
      cbn [res self_after calls fifo set_fifo];
      rewrite presence_notes_app, scripts_app, Hc, Hn;
      (split; [reflexivity|]); (split; [reflexivity|]); split;
      try discriminate.
    + intros e H. injection H as <-. repeat split.
    + intros w H. injection H as <-. split; [reflexivity|].
      eexists. reflexivity.
Qed.

(** ** Bounds on the extrusion multiplier *)

(** The expression of line 103 falls as the diameter grows. *)
Lemma multiplier_antitone nominal a b :
  0 <= nominal -> 0 < a -> a <= b ->
  (nominal / b) ^ 2 * 100 <= (nominal / a) ^ 2 * 100.
Proof.
  intros Hnom Ha Hab.
  assert (Hb : 0 < b) by (apply Qlt_le_trans with (1 := Ha); exact Hab).
  assert (H0 : 0 <= nominal / b).
  { apply Qle_shift_div_l; [exact Hb|]. rewrite Qmult_0_l. exact Hnom. }
  assert (H1 : nominal / b <= nominal / a).
  { apply Qle_shift_div_l; [exact Ha|].
    assert (E : nominal / b * a == nominal * a / b).
    { field. intros H. rewrite H in Hb. discriminate Hb. }
    rewrite E. apply Qle_shift_div_r; [exact Hb|].
    rewrite (Qmult_comm nominal a), (Qmult_comm nominal b).
    apply Qmult_le_compat_r; assumption. }
  apply Qmult_le_compat_r; [|discriminate].
  change ((nominal / b) ^ 2) with (nominal / b * (nominal / b)).
  change ((nominal / a) ^ 2) with (nominal / a * (nominal / a)).
  apply Qmult_le_compat_nonneg; split; assumption.
Qed.

Lemma bounded_in_range s d :
  min_diameter s <= nominal_diameter s <= max_diameter s ->
  min_diameter s <= bounded s d <= max_diameter s.
Proof.
  intros Hnom. unfold bounded.
  destruct (Py.between (min_diameter s) d (max_diameter s)) eqn:E;
    cbn [negb]; [|exact Hnom].
  apply between_spec. exact E.
Qed.

(** With a band that is not negative and narrower than the nominal diameter
    the bounds are positive and the nominal diameter lies within them. *)
Lemma band_of_reachable s :
  reachable s ->
  0 <= max_difference s -> max_difference s < nominal_diameter s ->
  0 < nominal_diameter s /\
  0 < min_diameter s /\
  min_diameter s <= nominal_diameter s <= max_diameter s.
Proof.
  intros Hreach Hlo Hhi.
  destruct (reachable_valid s Hreach) as (Hnom & _ & -> & ->).
  split; [apply Qlt_trans with (2 := Hnom); reflexivity|].
  split; [|split].
  - unfold Qminus. rewrite <- Qlt_minus_iff. exact Hhi.
  - apply Qplus_le_l with (z := max_difference s).
    setoid_replace (nominal_diameter s - max_difference s + max_difference s)
      with (nominal_diameter s + 0) by ring.
    apply Qplus_le_r. exact Hlo.
  - rewrite <- (Qplus_0_r (nominal_diameter s)) at 1.
    apply Qplus_le_r. exact Hlo.
Qed.

(** X5.  On a loaded sensor whose [max_difference] is not negative and
    smaller than [nominal_diameter] (the default 0.2 always is), no tick
    raises: it returns, and the diameter line 103 divides by lies within
    [[min_diameter, max_diameter]] and is positive. *)
Theorem tick_never_raises (s : FilaSense) (eventtime epos : Q) :
  reachable s ->
  0 <= max_difference s ->
  max_difference s < nominal_diameter s ->
  res (timer_callback eventtime epos s) = Ok (next_waketime eventtime s) /\
  (filament_present s = true ->
   exists d,
     diameter_to_use epos s = Ok d /\
     0 < d /\ min_diameter s <= d <= max_diameter s).
Proof.
  intros Hreach Hlo Hhi.
  destruct (band_of_reachable s Hreach Hlo Hhi) as (_ & Hmin & Hband).
  assert (Hpos : forall sel, 0 < bounded s sel).
  { intros sel. apply Qlt_le_trans with (1 := Hmin).
    apply bounded_in_range. exact Hband. }
  assert (Hnz : forall sel, Py.is_zero (bounded s sel) = false).
  { intros sel. apply is_zero_false. intros H.
    specialize (Hpos sel). rewrite H in Hpos. discriminate Hpos. }
  split.
  - destruct (timer_callback_cases eventtime epos s)
      as (head & rest & c & _ & _ & _ & [(_ & ->)|(_ & ->)]);
      [reflexivity|].
    cbv zeta. rewrite Hnz. reflexivity.
  - intros Hp.
    destruct (present_tick_run eventtime epos s Hp)
      as (sel & c & s2 & _ & Huse & _ & _).
    exists (bounded s sel). split; [exact Huse|]. split; [apply Hpos|].
    apply bounded_in_range. exact Hband.
Qed.

Lemma tick_never_raises_witness :
  res (timer_callback 1 70 thin_filament_sensor) =
  Ok (next_waketime 1 thin_filament_sensor) /\
  (filament_present thin_filament_sensor = true ->
   exists d,
     diameter_to_use 70 thin_filament_sensor = Ok d /\
     0 < d /\
     min_diameter thin_filament_sensor <= d <=
     max_diameter thin_filament_sensor).
Proof.
  apply (tick_never_raises thin_filament_sensor 1 70).
  - apply reachable_run_events.
    exact (reachable_init _ _ minimal_sensor_loaded).
  - apply le_spec. vm_compute. reflexivity.
  - vm_compute. reflexivity.
Defined.

(** X6.  On a loaded sensor whose [max_difference] is not negative and
    smaller than [nominal_diameter], every tick runs one [M221] whose
    percentage lies between the multipliers of the two bounds,
    [round((nominal_diameter / max_diameter) ** 2 * 100)] and
    [round((nominal_diameter / min_diameter) ** 2 * 100)]. *)
Theorem multiplier_bounded (s : FilaSense) (eventtime epos : Q) :
  reachable s ->
  0 <= max_difference s ->
  max_difference s < nominal_diameter s ->
  exists percent,
    scripts (calls (timer_callback eventtime epos s)) = [M221 percent] /\
    (Py.round ((nominal_diameter s / max_diameter s) ^ 2 * 100) <= percent <=
     Py.round ((nominal_diameter s / min_diameter s) ^ 2 * 100))%Z.
Proof.
  intros Hreach Hlo Hhi.
  destruct (band_of_reachable s Hreach Hlo Hhi) as (Hnom & Hmin & Hband).
  assert (Hnz : ~ nominal_diameter s == 0).
  { intros H. rewrite H in Hnom. discriminate Hnom. }
  assert (Hrange : forall d,
            min_diameter s <= d <= max_diameter s ->
            (Py.round ((nominal_diameter s / max_diameter s) ^ 2 * 100) <=
             Py.round ((nominal_diameter s / d) ^ 2 * 100) <=
             Py.round ((nominal_diameter s / min_diameter s) ^ 2 * 100))%Z).
  { intros d (Hd1 & Hd2). split; apply round_le; apply multiplier_antitone;
      auto using Qlt_le_weak.
    apply Qlt_le_trans with (1 := Hmin). exact Hd1. }
  destruct (timer_callback_cases eventtime epos s)
    as (head & rest & c & _ & Hc & _ & [(_ & ->)|(_ & ->)]).
  - exists 100%Z. cbn [calls]. rewrite scripts_app, Hc.
    split; [reflexivity|].
    pose proof (Hrange _ Hband) as H.
    rewrite (nominal_multiplier _ Hnz) in H. exact H.
  - cbv zeta.
    set (d := bounded s _).
    assert (Hd : min_diameter s <= d <= max_diameter s).
    { apply bounded_in_range. exact Hband. }
    assert (Hz : Py.is_zero d = false).
    { apply is_zero_false. intros H. destruct Hd as (Hd & _).
      rewrite H in Hd. apply (Qlt_not_le _ _ Hmin Hd). }
    rewrite Hz. eexists. cbn [calls]. rewrite scripts_app, Hc.
    split; [reflexivity|]. apply Hrange. exact Hd.
Qed.

Lemma multiplier_bounded_witness :
  exists percent,
    scripts (calls (timer_callback 1 70 thin_filament_sensor)) =
    [M221 percent] /\
    (Py.round
       ((nominal_diameter thin_filament_sensor /
         max_diameter thin_filament_sensor) ^ 2 * 100) <= percent <=
     Py.round
       ((nominal_diameter thin_filament_sensor /
         min_diameter thin_filament_sensor) ^ 2 * 100))%Z.
Proof.
  apply (multiplier_bounded thin_filament_sensor 1 70).
  - apply reachable_run_events.
    exact (reachable_init _ _ minimal_sensor_loaded).
  - apply le_spec. vm_compute. reflexivity.
  - vm_compute. reflexivity.
Defined.

(** X7.  The multiplier compensates in the right direction: on a loaded
    sensor with filament present, a diameter in use at or above the nominal
    one gives a multiplier of at most 100, and a positive one at or below
    the nominal one gives a multiplier of at least 100. *)
Theorem multiplier_direction (s : FilaSense) (eventtime epos d : Q) :
  reachable s ->
  runout_min_diameter s <= diameter s <= runout_max_diameter s ->
  diameter_to_use epos s = Ok d ->
  0 < d ->
  exists percent,
    scripts (calls (timer_callback eventtime epos s)) = [M221 percent] /\
    (nominal_diameter s <= d -> (percent <= 100)%Z) /\
    (d <= nominal_diameter s -> (100 <= percent)%Z).
Proof.
  intros Hreach Hpresent Huse Hd.
  destruct (reachable_valid s Hreach) as (Hnom & _).
  assert (Hnom0 : 0 < nominal_diameter s).
  { apply Qlt_trans with (2 := Hnom). reflexivity. }
  assert (Hnz : ~ nominal_diameter s == 0).
  { intros H. rewrite H in Hnom0. discriminate Hnom0. }
  apply filament_present_spec in Hpresent.
  destruct (present_tick_run eventtime epos s Hpresent)
    as (sel & c & s2 & _ & Huse' & Hc & Htick).
  rewrite Huse in Huse'. injection Huse' as Hsel. rewrite <- Hsel in Htick.
  assert (Hz : Py.is_zero d = false).
  { apply is_zero_false. intros H. rewrite H in Hd. discriminate Hd. }
  rewrite Hz in Htick. rewrite Htick. cbn [calls].
  rewrite scripts_app, Hc. eexists. split; [reflexivity|].
  pose proof (nominal_multiplier (nominal_diameter s) Hnz) as H100.
  split; intros H.
  - rewrite <- H100 at 2.
    apply round_le. apply multiplier_antitone; auto using Qlt_le_weak.
  - rewrite <- H100 at 1.
    apply round_le. apply multiplier_antitone; auto using Qlt_le_weak.
Qed.

Lemma multiplier_direction_witness :
  exists percent,
    scripts (calls (timer_callback 1 70 (queued_reading 0.625))) =
    [M221 percent] /\
    (nominal_diameter (queued_reading 0.625) <= 1.50 -> (percent <= 100)%Z) /\
    (1.50 <= nominal_diameter (queued_reading 0.625) -> (100 <= percent)%Z).
Proof.
  apply (multiplier_direction (queued_reading 0.625) 1 70 1.50).
  - apply reachable_run_events.
    exact (reachable_init _ _ wide_sensor_loaded).
  - split; apply le_spec; vm_compute; reflexivity.
  - vm_compute. reflexivity.
  - reflexivity.
Defined.

(** ** Logging *)

Lemma after_append_logging b epos s :
  fifo (after_append epos (set_logging b s)) = fifo (after_append epos s).
Proof.
  destruct (after_append_run epos s) as (_ & _ & _ & ->).
  destruct (after_append_run epos (set_logging b s)) as (_ & _ & _ & ->).
  reflexivity.
Qed.

(** X8.  The logging flag does not steer the controller: a tick on the same
    object with [logging] set either way returns the same, runs the same
    script, reports the same presence and leaves the same FIFO; only the
    "Filament diameter" responses differ. *)
Theorem logging_does_not_steer
    (s : FilaSense) (b : bool) (eventtime epos : Q) :
  let o := timer_callback eventtime epos s in
  let o' := timer_callback eventtime epos (set_logging b s) in
  res o' = res o /\
  scripts (calls o') = scripts (calls o) /\
  presence_notes (calls o') = presence_notes (calls o) /\
  self_after o' = set_logging b (self_after o).
Proof.
  cbv zeta.
  destruct (timer_callback_cases eventtime epos s)
    as (head & rest & c & Hfifo & Hc & Hn & Hcases).
  destruct (timer_callback_cases eventtime epos (set_logging b s))
    as (head' & rest' & c' & Hfifo' & Hc' & Hn' & Hcases').
  rewrite after_append_logging, Hfifo in Hfifo'.
  injection Hfifo' as <- <-.
  change (filament_present (set_logging b s)) with (filament_present s)
    in Hcases'.
  destruct Hcases as [(Hp & ->)|(Hp & ->)];
    destruct Hcases' as [(Hp' & ->)|(Hp' & ->)]; try congruence.
  - cbn [res calls self_after].
    rewrite !scripts_app, !presence_notes_app, Hc, Hc', Hn, Hn'.
    repeat split.
  - cbv zeta.
    change (bounded (set_logging b s)) with (bounded s).
    cbn [use_current_diameter_while_delay diameter nominal_diameter
         set_logging].
    destruct (Py.is_zero _); cbn [res calls self_after];
      rewrite !scripts_app, !presence_notes_app, Hc, Hc', Hn, Hn';
      repeat split.
Qed.

(** ** What an event does to the FIFO and the reading *)







(** ** Readings keep two decimals *)




(** ** The FIFO over whole runs *)






(** ** The delay phase *)

(** The diameter lines 93-98 fall back to. *)
Lemma delay_phase_selected epos s :
  reachable s ->
  fifo s = [] ->
  selected_diameter epos s =
  Ok (if use_current_diameter_while_delay s then diameter s
      else nominal_diameter s).
Proof.
  intros Hreach Hempty.
  destruct (reachable_valid s Hreach) as (_ & Hdelay & _).
  unfold selected_diameter. rewrite select_diameter_run.
  destruct (after_append_run epos s) as (_ & _ & _ & ->).
  rewrite Hempty. cbn [measurement_due fifo_last app fifo set_fifo fst].
  assert (Hnot : Py.ge epos (epos + measurement_delay s) = false).
  { apply le_false. rewrite <- (Qplus_0_r epos) at 1.
    apply Qplus_lt_r. exact Hdelay. }
  rewrite Hnot. reflexivity.
Qed.

(** X11.  A tick of a loaded sensor that finds the FIFO empty, with filament
    present, queues the current reading for the position
    [measurement_delay] ahead and does not use it yet: the diameter it
    resolves is the current reading when
    [use_current_diameter_while_delay] is set and the nominal diameter
    otherwise, and in the latter case the script is [M221 S100]. *)
Theorem empty_fifo_tick (s : FilaSense) (eventtime epos : Q) :
  reachable s ->
  fifo s = [] ->
  runout_min_diameter s <= diameter s <= runout_max_diameter s ->
  selected_diameter epos s =
  Ok (if use_current_diameter_while_delay s then diameter s
      else nominal_diameter s) /\
  fifo (self_after (timer_callback eventtime epos s)) =
  [(epos + measurement_delay s, diameter s)] /\
  (use_current_diameter_while_delay s = false ->
   res (timer_callback eventtime epos s) = Ok (next_waketime eventtime s) /\
   scripts (calls (timer_callback eventtime epos s)) = [M221 100]).
Proof.
  intros Hreach Hempty Hpresent.
  apply filament_present_spec in Hpresent.
  pose proof (delay_phase_selected epos s Hreach Hempty) as Hsel.
  split; [exact Hsel|]. split.
  - apply first_tick_queues; assumption.
  - intros Hpolicy. rewrite Hpolicy in Hsel.
    destruct (reachable_valid s Hreach) as (Hnom & _).
    assert (Hnz : ~ nominal_diameter s == 0).
    { intros H. rewrite H in Hnom. discriminate Hnom. }
    destruct (present_tick_run eventtime epos s Hpresent)
      as (sel & c & s2 & Hsel' & _ & Hc & Htick).
    rewrite Hsel in Hsel'. injection Hsel' as <-.
    assert (Hb : bounded s (nominal_diameter s) = nominal_diameter s).
    { unfold bounded. destruct (negb _); reflexivity. }
    rewrite Hb in Htick.
    apply is_zero_false in Hnz as Hz. rewrite Hz in Htick.
    rewrite Htick. cbn [res calls]. split; [reflexivity|].
    rewrite scripts_app, Hc, (nominal_multiplier _ Hnz). reflexivity.
Qed.

(** X12.  The reset command empties the FIFO, answers and runs [M221 S100];
    it assigns nothing else ([enabled], the timer and the reading stay), so
    the sensor keeps running, and the next tick with filament present is
    back in the delay phase: it resolves the current or the nominal
    diameter, not a queued one. *)
Theorem reset_restarts_delay (s : FilaSense) (epos : Q) :
  reachable s ->
  let o := cmd_RESET_FILAMENT_DIAMETER_SENSOR s in
  res o = Ok tt /\
  self_after o = set_fifo [] s /\
  calls o =
  [respond_info (InfoText "Filament diameter measurements cleared!");
   run_script_from_command (M221 100)] /\
  selected_diameter epos (self_after o) =
  Ok (if use_current_diameter_while_delay s then diameter s
      else nominal_diameter s).
Proof.
  intros Hreach. cbv zeta.
  split; [reflexivity|]. split; [reflexivity|]. split; [reflexivity|].
  change (self_after (cmd_RESET_FILAMENT_DIAMETER_SENSOR s))
    with (self_after (handle (gcode RESET_FILAMENT_DIAMETER_SENSOR) s)).
  rewrite delay_phase_selected; [reflexivity| |reflexivity].
  constructor. exact Hreach.
Qed.

(** X13.  A tick with filament present never uses a queued measurement
    early and never skips one: when the FIFO head is [(p, d)], the tick
    resolves [d] and removes exactly that entry if the extruder has reached
    [p], and otherwise resolves the current or nominal diameter and removes
    nothing. *)
Theorem head_used_when_reached
    (s : FilaSense) (eventtime epos p d : Q) (rest : list entry) :
  fifo s = (p, d) :: rest ->
  runout_min_diameter s <= diameter s <= runout_max_diameter s ->
  exists rest',
    fifo (after_append epos s) = (p, d) :: rest' /\
    (rest' = rest \/
     rest' = rest ++ [(epos + measurement_delay s, diameter s)]) /\
    (p <= epos ->
     selected_diameter epos s = Ok d /\
     fifo (self_after (timer_callback eventtime epos s)) = rest') /\
    (epos < p ->
     selected_diameter epos s =
     Ok (if use_current_diameter_while_delay s then diameter s
         else nominal_diameter s) /\
     fifo (self_after (timer_callback eventtime epos s)) = (p, d) :: rest').
Proof.
  intros Hfifo Hpresent. apply filament_present_spec in Hpresent.
  destruct (after_append_run epos s) as (_ & _ & _ & Hs1).
  assert (Hq : exists rest',
             fifo (after_append epos s) = (p, d) :: rest' /\
             (rest' = rest \/
              rest' = rest ++ [(epos + measurement_delay s, diameter s)])).
  { rewrite Hfifo in Hs1. rewrite Hs1. cbn [fifo set_fifo].
    destruct (measurement_due _ _ _); cbn [app].
    - exists (rest ++ [(epos + measurement_delay s, diameter s)]). auto.
    - exists rest. auto. }
  destruct Hq as (rest' & Hq & Hrest').
  exists rest'. split; [exact Hq|]. split; [exact Hrest'|].
  destruct (timer_callback_cases eventtime epos s)
    as (head & rest0 & c & Hq' & _ & _ & [(Hp & _)|(_ & Htick)]);
    [congruence|].
  rewrite Hq in Hq'. injection Hq' as <- <-.
  cbv zeta in Htick. cbn [fst snd] in Htick.
  unfold selected_diameter. rewrite select_diameter_run, Hq. cbn [fst snd].
  assert (Hsame : use_current_diameter_while_delay (after_append epos s) =
                  use_current_diameter_while_delay s /\
                  diameter (after_append epos s) = diameter s /\
                  nominal_diameter (after_append epos s) =
                  nominal_diameter s).
  { rewrite Hs1. repeat split. }
  destruct Hsame as (-> & -> & ->).
  split; intros Hpos.
  - apply ge_spec in Hpos. rewrite Hpos in Htick |- *.
    split; [reflexivity|]. rewrite Htick.
    destruct (Py.is_zero _); reflexivity.
  - apply le_false in Hpos. unfold Py.ge in Htick |- *.
    unfold Py.le in Hpos. rewrite Hpos in Htick |- *.
    split; [reflexivity|]. rewrite Htick.
    destruct (Py.is_zero _); reflexivity.
Qed.

Lemma empty_fifo_tick_witness :
  fifo (self_after (timer_callback 0 0 fresh_reading_sensor)) =
  [(0 + measurement_delay fresh_reading_sensor,
    diameter fresh_reading_sensor)].
Proof.
  apply (empty_fifo_tick fresh_reading_sensor 0 0).
  - apply reachable_run_events.
    exact (reachable_init _ _ minimal_sensor_loaded).
  - vm_compute. reflexivity.
  - split; apply le_spec; vm_compute; reflexivity.
Defined.

Lemma reset_restarts_delay_witness :
  selected_diameter 70
    (self_after (cmd_RESET_FILAMENT_DIAMETER_SENSOR thin_filament_sensor)) =
  Ok (if use_current_diameter_while_delay thin_filament_sensor
      then diameter thin_filament_sensor
      else nominal_diameter thin_filament_sensor).
Proof.
  apply (reset_restarts_delay thin_filament_sensor 70).
  apply reachable_run_events.
  exact (reachable_init _ _ minimal_sensor_loaded).
Defined.

Lemma head_used_when_reached_witness :
  exists rest',
    fifo (after_append 70 thin_filament_sensor) = (70, 1.20) :: rest' /\
    (rest' = [] \/
     rest' =
     [] ++ [(70 + measurement_delay thin_filament_sensor,
             diameter thin_filament_sensor)]) /\
    (70 <= 70 ->
     selected_diameter 70 thin_filament_sensor = Ok 1.20 /\
     fifo (self_after (timer_callback 1 70 thin_filament_sensor)) = rest') /\
    (70 < 70 ->
     selected_diameter 70 thin_filament_sensor =
     Ok (if use_current_diameter_while_delay thin_filament_sensor
         then diameter thin_filament_sensor
         else nominal_diameter thin_filament_sensor) /\
     fifo (self_after (timer_callback 1 70 thin_filament_sensor)) =
     (70, 1.20) :: rest').
Proof.
  apply (head_used_when_reached thin_filament_sensor 1 70 70 1.20 []).
  - vm_compute. reflexivity.
  - split; apply le_spec; vm_compute; reflexivity.
Defined.

(** ** What [__init__] accepts *)

Lemma getfloat_default name value d :
  getfloat name value (Some d) None =
  Ok (match value with Some v => v | None => d end).
Proof. destruct value; reflexivity. Qed.

Lemma getint_default name value d :
  getint name value (Some d) =
  Ok (match value with Some v => v | None => d end).
Proof. destruct value; reflexivity. Qed.

Lemma getboolean_default name value d :
  getboolean name value (Some d) =
  Ok (match value with Some v => v | None => d end).
Proof. destruct value; reflexivity. Qed.

Lemma getfloat_required name value bound :
  getfloat name value None (Some bound) =
  match value with
  | Some v => if Py.le v bound then Raise (ConfigError name) else Ok v
  | None => Raise (ConfigError name)
  end.
Proof. destruct value; reflexivity. Qed.

(** X14.  [__init__] needs three options and checks two bounds, in this
    order: it raises a configuration error naming [pin] when [pin] is
    missing, else one naming [nominal_diameter] when that is missing or not
    above 1.0, else one naming [measurement_delay] when that is missing or
    not above 0.0; otherwise it returns a sensor, whatever the other options
    are, with an empty FIFO, [raw] and [diameter] 0 and the timer not
    scheduled. *)
Theorem init_accepts (config : Config) :
  (cfg_pin config = None ->
   load_config config = Raise (ConfigError "pin")) /\
  (cfg_pin config <> None ->
   match cfg_nominal_diameter config with
   | None => load_config config = Raise (ConfigError "nominal_diameter")
   | Some nominal =>
       (nominal <= 1 ->
        load_config config = Raise (ConfigError "nominal_diameter")) /\
       (1 < nominal ->
        match cfg_measurement_delay config with
        | None =>
            load_config config = Raise (ConfigError "measurement_delay")
        | Some delay =>
            (delay <= 0 ->
             load_config config =
             Raise (ConfigError "measurement_delay")) /\
            (0 < delay ->
             exists s,
               load_config config = Ok s /\
               nominal_diameter s = nominal /\
               measurement_delay s = delay /\
               fifo s = [] /\ raw s = 0%Z /\ diameter s = 0 /\
               timer s = NEVER)
        end)
   end).
Proof.
  unfold load_config, __init__.
  rewrite !getfloat_default, !getint_default, !getboolean_default,
    !getfloat_required.
  split.
  - intros ->. reflexivity.
  - intros Hpin. destruct (cfg_pin config) as [pin|]; [|contradiction].
    cbn [config_get result_bind].
    destruct (cfg_nominal_diameter config) as [nominal|]; [|reflexivity].
    split.
    + intros Hle. assert (H : Py.le nominal 1.0 = true).
      { apply le_spec. apply Qle_trans with (1 := Hle). discriminate. }
      rewrite H. reflexivity.
    + intros Hlt. assert (H : Py.le nominal 1.0 = false).
      { apply le_false. apply Qle_lt_trans with (2 := Hlt). discriminate. }
      rewrite H. cbn [result_bind].
      destruct (cfg_measurement_delay config) as [delay|]; [|reflexivity].
      split.
      * intros Hle. assert (H' : Py.le delay 0.0 = true).
        { apply le_spec. apply Qle_trans with (1 := Hle). discriminate. }
        rewrite H'. reflexivity.
      * intros Hpos. assert (H' : Py.le delay 0.0 = false).
        { apply le_false. apply Qle_lt_trans with (2 := Hpos).
          discriminate. }
        rewrite H'. cbv beta iota zeta delta [result_bind].
        rewrite getfloat_default.
        eexists. split; [reflexivity|]. repeat split.
Qed.

(** X15.  A sensor straight from [__init__] reads a diameter of 0 (not the
    nominal one), so with a positive [runout_min_diameter] (the default is
    1.0) it judges the filament absent until the first ADC report: the query
    command answers "Filament NOT present" and a tick reports the absence
    and runs [M221 S100]. *)
Theorem fresh_sensor_reads_absent
    (config : Config) (s : FilaSense) (eventtime epos : Q) :
  load_config config = Ok s ->
  match cfg_runout_min_diameter config with
  | Some lowest => 0 < lowest
  | None => True
  end ->
  filament_present s = false /\
  calls (cmd_QUERY_FILAMENT_DIAMETER s) =
  [respond_info (InfoText "Filament NOT present")] /\
  presence_notes (calls (timer_callback eventtime epos s)) = [false] /\
  scripts (calls (timer_callback eventtime epos s)) = [M221 100].
Proof.
  intros Hinit Hlowest.
  assert (Habsent : filament_present s = false).
  { unfold load_config, __init__ in Hinit. init_steps Hinit.
    injection Hinit as <-.
    unfold filament_present, Py.between.
    cbn [runout_min_diameter diameter runout_max_diameter].
    rewrite getfloat_default in E9. injection E9 as <-.
    assert (H : Py.le
                  match cfg_runout_min_diameter config with
                  | Some v => v
                  | None => 1.0
                  end 0 = false).
    { apply le_false.
      destruct (cfg_runout_min_diameter config); [exact Hlowest|].
      reflexivity. }
    rewrite H. reflexivity. }
  split; [exact Habsent|]. split.
  - unfold cmd_QUERY_FILAMENT_DIAMETER.
    rewrite !bind_get, Habsent. reflexivity.
  - destruct (timer_callback_cases eventtime epos s)
      as (head & rest & c & _ & Hc & Hn & [(_ & ->)|(Hp & _)]);
      [|congruence].
    cbn [calls]. rewrite presence_notes_app, scripts_app, Hc, Hn.
    split; reflexivity.
Qed.

Lemma fresh_sensor_reads_absent_witness :
  filament_present minimal_sensor = false /\
  calls (cmd_QUERY_FILAMENT_DIAMETER minimal_sensor) =
  [respond_info (InfoText "Filament NOT present")] /\
  presence_notes (calls (timer_callback 0 0 minimal_sensor)) = [false] /\
  scripts (calls (timer_callback 0 0 minimal_sensor)) = [M221 100].
Proof.
  apply (fresh_sensor_reads_absent minimal_config minimal_sensor 0 0).
  - reflexivity.
  - exact I.
Defined.

(** ** Enabling and disabling *)

(** X16.  The enable command on a disabled sensor sets [enabled], schedules
    the timer at once and answers "turned ON"; it leaves the FIFO and the
    reading alone and runs no script.  The reactor then runs a tick whatever
    the time, and when that tick returns the timer is set one time unit
    after it.  A second enable command only answers "already ON". *)
Theorem enable_starts_ticking (s : FilaSense) (eventtime epos : Q) :
  enabled s = false ->
  let o := cmd_ENABLE_FILAMENT_DIAMETER_SENSOR s in
  let s1 := self_after o in
  res o = Ok tt /\
  s1 = set_timer NOW (set_enabled true s) /\
  calls o = [respond_info (InfoText "Filament diameter sensor turned ON")] /\
  cmd_ENABLE_FILAMENT_DIAMETER_SENSOR s1 =
  mkOutcome (Ok tt) s1
    [respond_info (InfoText "Filament diameter sensor is already ON")] /\
  calls (handle (reactor_time eventtime epos) s1) =
  calls (timer_callback eventtime epos s1) /\
  (forall w,
     res (timer_callback eventtime epos s1) = Ok w ->
     timer (self_after (handle (reactor_time eventtime epos) s1)) =
     At (eventtime + 1)).
Proof.
  intros Hoff. cbv zeta. rewrite cmd_ENABLE_run, Hoff.
  cbn [res self_after calls].
  split; [reflexivity|]. split; [reflexivity|]. split; [reflexivity|].
  split; [rewrite cmd_ENABLE_run; reflexivity|].
  set (s1 := set_timer NOW (set_enabled true s)).
  assert (Hdue : timer_due (timer s1) eventtime = true) by reflexivity.
  destruct (reactor_dispatch_due eventtime epos s1 Hdue) as (Hcalls & Hret).
  split; [exact Hcalls|]. intros w Hw.
  pose proof (timer_callback_returns _ _ _ _ Hw) as Hnext. subst w.
  cbn [handle]. destruct (Hret Hw) as (_ & ->). reflexivity.
Qed.

Lemma enable_starts_ticking_witness :
  calls (handle (reactor_time 5 0)
           (self_after (cmd_ENABLE_FILAMENT_DIAMETER_SENSOR minimal_sensor))) =
  calls (timer_callback 5 0
           (self_after (cmd_ENABLE_FILAMENT_DIAMETER_SENSOR minimal_sensor))).
Proof.
  apply (enable_starts_ticking minimal_sensor 5 0). reflexivity.
Defined.

(** X17.  The disable command on an enabled sensor clears [enabled], takes
    the timer off the schedule, empties the FIFO, runs [M221 S100] and then
    answers "turned OFF"; the reading stays.  After it the reactor calls no
    tick, whatever the time: the dispatch changes nothing and calls no
    one. *)
Theorem disable_stops_ticking (s : FilaSense) (eventtime epos : Q) :
  enabled s = true ->
  let o := cmd_DISABLE_FILAMENT_DIAMETER_SENSOR s in
  res o = Ok tt /\
  self_after o = set_fifo [] (set_timer NEVER (set_enabled false s)) /\
  calls o =
  [run_script_from_command (M221 100);
   respond_info (InfoText "Filament diameter sensor turned OFF")] /\
  handle (reactor_time eventtime epos) (self_after o) =
  mkOutcome (Ok tt) (self_after o) [].
Proof.
  intros Hon. cbv zeta. rewrite cmd_DISABLE_run, Hon.
  cbn [res self_after calls].
  split; [reflexivity|]. split; [reflexivity|]. split; [reflexivity|].
  cbn [handle]. apply reactor_dispatch_idle. reflexivity.
Qed.

Lemma disable_stops_ticking_witness :
  handle (reactor_time 9 80)
    (self_after (cmd_DISABLE_FILAMENT_DIAMETER_SENSOR absent_tick_state)) =
  mkOutcome (Ok tt)
    (self_after (cmd_DISABLE_FILAMENT_DIAMETER_SENSOR absent_tick_state)) [].
Proof.
  apply (disable_stops_ticking absent_tick_state 9 80). reflexivity.
Defined.

(** ** Ticks without filament *)

(** X18.  A tick without filament leaves the object as it was but for an
    empty FIFO, so ticks without filament repeat: the next one leaves the
    object unchanged and again runs [M221 S100] and nothing else. *)
Theorem absent_ticks_repeat (s : FilaSense) (t1 epos1 t2 epos2 : Q) :
  ~ runout_min_diameter s <= diameter s <= runout_max_diameter s ->
  let s1 := self_after (timer_callback t1 epos1 s) in
  s1 = set_fifo [] s /\
  self_after (timer_callback t2 epos2 s1) = s1 /\
  scripts (calls (timer_callback t2 epos2 s1)) = [M221 100] /\
  presence_notes (calls (timer_callback t2 epos2 s1)) = [false].
Proof.
  intros Hout. apply filament_present_false in Hout. cbv zeta.
  assert (Hfirst : self_after (timer_callback t1 epos1 s) = set_fifo [] s).
  { destruct (timer_callback_cases t1 epos1 s)
      as (head & rest & c & _ & _ & _ & [(_ & ->)|(Hp & _)]);
      [reflexivity|congruence]. }
  rewrite Hfirst. split; [reflexivity|].
  assert (Hout' : filament_present (set_fifo [] s) = false) by exact Hout.
  destruct (timer_callback_cases t2 epos2 (set_fifo [] s))
    as (head & rest & c & _ & Hc & Hn & [(_ & ->)|(Hp & _)]);
    [|congruence].
  cbn [self_after calls].
  rewrite scripts_app, presence_notes_app, Hc, Hn. repeat split.
Qed.

Lemma absent_ticks_repeat_witness :
  self_after (timer_callback 12 25 absent_tick_state) =
  set_fifo [] absent_tick_state.
Proof.
  apply (absent_ticks_repeat absent_tick_state 12 25 13 26).
  intros [H _]. apply le_spec in H. discriminate H.
Defined.

(** ** Queries *)

(** A tick reports the judgement of line 86, once. *)
Lemma tick_presence_notes eventtime epos s :
  presence_notes (calls (timer_callback eventtime epos s)) =
  [filament_present s].
Proof.
  destruct (timer_callback_cases eventtime epos s)
    as (head & rest & c & _ & _ & Hn & [(Hp & ->)|(Hp & ->)]); rewrite Hp.
  - cbn [calls]. rewrite presence_notes_app, Hn. reflexivity.
  - cbv zeta. destruct (Py.is_zero _); cbn [calls];
      rewrite presence_notes_app, Hn; reflexivity.
Qed.

(** X19.  The queries change nothing and run no script.  The diameter query
    answers "Filament NOT present" exactly when a tick on the same object
    reports the filament absent, and the diameter otherwise; the raw query
    and [get_status] report [raw], [diameter] and [enabled] as they are. *)
Theorem queries_read_only (s : FilaSense) (eventtime epos : Q) :
  cmd_QUERY_FILAMENT_DIAMETER s =
  mkOutcome (Ok tt) s
    [respond_info
       (match presence_notes (calls (timer_callback eventtime epos s)) with
        | [true] => InfoDiameter (diameter s)
        | _ => InfoText "Filament NOT present"
        end)] /\
  cmd_QUERY_RAW_FILAMENT_DIAMETER s =
  mkOutcome (Ok tt) s [respond_info (InfoRaw (raw s))] /\
  get_status eventtime s =
  mkOutcome (Ok (diameter s, raw s, enabled s)) s [].
Proof.
  split; [|split; reflexivity].
  rewrite tick_presence_notes.
  unfold cmd_QUERY_FILAMENT_DIAMETER. rewrite !bind_get.
  destruct (filament_present s); reflexivity.
Qed.

(** ** The period of the ticks *)

(** X20.  While the sensor is enabled the ticks come one time unit apart: a
    tick that the reactor runs at [eventtime] and that returns leaves the
    timer at [eventtime + 1]; the reactor calls nothing before that time and
    runs the next tick once it is reached. *)
Theorem ticks_one_unit_apart
    (s : FilaSense) (eventtime epos later epos' : Q) :
  enabled s = true ->
  timer_due (timer s) eventtime = true ->
  res (timer_callback eventtime epos s) = Ok (At (eventtime + 1)) ->
  let s1 := self_after (handle (reactor_time eventtime epos) s) in
  timer s1 = At (eventtime + 1) /\
  enabled s1 = true /\
  (later < eventtime + 1 ->
   handle (reactor_time later epos') s1 = mkOutcome (Ok tt) s1 []) /\
  (eventtime + 1 <= later ->
   calls (handle (reactor_time later epos') s1) =
   calls (timer_callback later epos' s1)).
Proof.
  intros Hon Hdue Hret. cbv zeta. cbn [handle].
  destruct (reactor_dispatch_due eventtime epos s Hdue) as (_ & Hstate).
  assert (Hnext : next_waketime eventtime s = At (eventtime + 1)).
  { unfold next_waketime. rewrite Hon. reflexivity. }
  rewrite Hnext in Hstate. destruct (Hstate Hret) as (_ & ->).
  assert (Hen : enabled (self_after (timer_callback eventtime epos s)) =
                true).
  { destruct (timer_callback_cases eventtime epos s)
      as (head & rest & c & _ & _ & _ & [(_ & ->)|(_ & ->)]);
      [exact Hon|].
    cbv zeta. destruct (Py.is_zero _); exact Hon. }
  split; [reflexivity|]. split; [exact Hen|]. split.
  - intros Hearly. apply reactor_dispatch_idle.
    cbn [timer set_timer timer_due]. apply le_false. exact Hearly.
  - intros Hlate.
    apply reactor_dispatch_due.
    cbn [timer set_timer timer_due]. apply ge_spec. exact Hlate.
Qed.

Lemma ticks_one_unit_apart_witness :
  timer (self_after (handle (reactor_time 12 25) absent_tick_state)) =
  At (12 + 1).
Proof.
  apply (ticks_one_unit_apart absent_tick_state 12 25 12 25);
    reflexivity.
Defined.

(** ** The diameter log *)

Lemma responses_app c1 c2 :
  responses (c1 ++ c2) = responses c1 ++ responses c2.
Proof.
  induction c1 as [|c c1 IH]; [reflexivity|].
  destruct c; cbn; rewrite IH; reflexivity.
Qed.

(** The responses of a tick are those of lines 80-84. *)
Lemma tick_responses eventtime epos s :
  responses (calls (timer_callback eventtime epos s)) =
  if measurement_due (fifo s) (measurement_interval s)
       (epos + measurement_delay s) && logging s
  then [InfoDiameter (diameter s)] else [].
Proof.
  destruct (after_append_run epos s) as (c & Hrun & _ & _).
  assert (Hc : responses c =
               if measurement_due (fifo s) (measurement_interval s)
                    (epos + measurement_delay s) && logging s
               then [InfoDiameter (diameter s)] else []).
  { rewrite append_measurement_run in Hrun.
    destruct (measurement_due _ _ _); injection Hrun as _ <-;
      [|reflexivity].
    destruct (logging s); reflexivity. }
  pose proof (after_append_nonempty epos s) as Hne.
  destruct (fifo (after_append epos s)) as [|head rest] eqn:Hfifo;
    [contradiction|].
  destruct (filament_present (after_append epos s)) eqn:Hp.
  - rewrite (timer_callback_present _ _ _ _ _ _ _ Hrun Hp Hfifo).
    cbv zeta. destruct (Py.is_zero _); cbn [calls];
      rewrite responses_app, Hc; apply app_nil_r.
  - rewrite (timer_callback_absent _ _ _ _ _ Hrun Hp). cbn [calls].
    rewrite responses_app, Hc. apply app_nil_r.
Qed.

(** X21.  The two logging commands assign [logging] only and answer.  After
    the enable command a tick responds "Filament diameter: <diameter>"
    exactly when it appends a measurement to the FIFO (the FIFO was empty or
    the measurement interval has passed), once; after the disable command a
    tick makes no response. *)
Theorem log_follows_queue (s : FilaSense) (eventtime epos : Q) :
  cmd_ENABLE_FILAMENT_DIAMETER_LOG s =
  mkOutcome (Ok tt) (set_logging true s)
    [respond_info (InfoText "Filament diameter logging turned ON")] /\
  cmd_DISABLE_FILAMENT_DIAMETER_LOG s =
  mkOutcome (Ok tt) (set_logging false s)
    [respond_info (InfoText "Filament diameter logging turned OFF")] /\
  responses
    (calls
       (timer_callback eventtime epos
          (self_after (cmd_DISABLE_FILAMENT_DIAMETER_LOG s)))) = [] /\
  responses
    (calls
       (timer_callback eventtime epos
          (self_after (cmd_ENABLE_FILAMENT_DIAMETER_LOG s)))) =
  (if measurement_due (fifo s) (measurement_interval s)
        (epos + measurement_delay s)
   then [InfoDiameter (diameter s)] else []) /\
  (measurement_due (fifo s) (measurement_interval s)
     (epos + measurement_delay s) = true <->
   fifo (after_append epos s) =
   fifo s ++ [(epos + measurement_delay s, diameter s)]).
Proof.
  split; [reflexivity|]. split; [reflexivity|].
  change (self_after (cmd_DISABLE_FILAMENT_DIAMETER_LOG s))
    with (set_logging false s).
  change (self_after (cmd_ENABLE_FILAMENT_DIAMETER_LOG s))
    with (set_logging true s).
  rewrite !tick_responses.
  cbn [fifo measurement_interval measurement_delay diameter logging
       set_logging].
  rewrite andb_false_r, andb_true_r.
  split; [reflexivity|]. split; [reflexivity|].
  destruct (after_append_run epos s) as (_ & _ & _ & ->).
  cbn [fifo set_fifo].
  destruct (measurement_due _ _ _); split; try reflexivity;
    try discriminate.
  intros H. exfalso.
  apply (f_equal (@List.length entry)) in H.
  rewrite List.length_app in H. cbn [List.length] in H. lia.
Qed.
